(** * pr-review-bot: the incremental review engine

    A shallow embedding of [pr-review-bot/index.js] (the three copies of the
    bot kept in the repository) and the properties of its phrase extractor,
    line matcher, submission payloads and cross-run orchestration. *)

From Stdlib Require Import Bool Arith List ZArith Lia Ascii String.
From Stdlib Require Import Permutation Sorted.
Import ListNotations.
Open Scope string_scope.
Open Scope list_scope.
Open Scope nat_scope.

Infix "+++" := String.append (right associativity, at level 60).

(** ** JavaScript string built-ins used by the bot

    A JavaScript string is modelled as a [string] of code units below 256
    (the Latin-1 range); [toLowerCase], [trim] and the regexp class [\s] are
    the ECMAScript ones restricted to that range. *)
Module JS.

Definition code (c : ascii) : nat := nat_of_ascii c.

Definition between (lo hi n : nat) : bool := (lo <=? n) && (n <=? hi).

(** WhiteSpace and LineTerminator code points: TAB, LF, VT, FF, CR, SP, NBSP. *)
Definition isWhiteSpace (c : ascii) : bool :=
  between 9 13 (code c) || (code c =? 32) || (code c =? 160).

Definition lowerChar (c : ascii) : ascii :=
  let n := code c in
  if between 65 90 n || (between 192 222 n && negb (n =? 215))
  then ascii_of_nat (n + 32) else c.

Fixpoint toLowerCase (s : string) : string :=
  match s with
  | EmptyString => EmptyString
  | String c r => String (lowerChar c) (toLowerCase r)
  end.

Fixpoint trimStart (s : string) : string :=
  match s with
  | EmptyString => EmptyString
  | String c r => if isWhiteSpace c then trimStart r else s
  end.

Fixpoint trimEnd (s : string) : string :=
  match s with
  | EmptyString => EmptyString
  | String c r =>
      match trimEnd r with
      | EmptyString => if isWhiteSpace c then EmptyString else String c EmptyString
      | r' => String c r'
      end
  end.

Definition trim (s : string) : string := trimEnd (trimStart s).

(** [s.includes(sub)] *)
Fixpoint includes (s sub : string) : bool :=
  prefix sub s ||
  match s with
  | EmptyString => false
  | String _ r => includes r sub
  end.

Fixpoint drop (n : nat) (s : string) : string :=
  match n, s with
  | S k, String _ r => drop k r
  | _, _ => s
  end.

(** [s.replace(pat, rep)] with a string pattern: the first occurrence only. *)
Fixpoint replace (s pat rep : string) : string :=
  if prefix pat s then rep +++ drop (String.length pat) s
  else match s with
       | EmptyString => EmptyString
       | String c r => String c (replace r pat rep)
       end.

(** [s.slice(0, n)] *)
Definition slice0 (n : nat) (s : string) : string := substring 0 n s.

(** truthiness of a string: non-empty *)
Definition truthy (s : string) : bool :=
  match s with EmptyString => false | _ => true end.

(** *** A backtracking matcher for the regexp fragment the bot uses

    [matches r s] lists, in the priority order of a backtracking engine
    (left alternative first, greedy repetition longest first), every way
    [r] matches a prefix of [s], as (matched text, remaining text). *)
Inductive regex : Type :=
| Lit (c : ascii)
| Plus (cls : ascii -> bool)
| Star (cls : ascii -> bool)
| Seq (r1 r2 : regex)
| Alt (r1 r2 : regex).

Definition consMatch (c : ascii) (m : string * string) : string * string :=
  (String c (fst m), snd m).

Fixpoint star (cls : ascii -> bool) (s : string) : list (string * string) :=
  match s with
  | EmptyString => [(EmptyString, EmptyString)]
  | String c r =>
      if cls c then map (consMatch c) (star cls r) ++ [(EmptyString, s)]
      else [(EmptyString, s)]
  end.

Definition plus (cls : ascii -> bool) (s : string) : list (string * string) :=
  match s with
  | EmptyString => []
  | String c r => if cls c then map (consMatch c) (star cls r) else []
  end.

Fixpoint matches (r : regex) (s : string) : list (string * string) :=
  match r with
  | Lit c =>
      match s with
      | String d rest => if Ascii.eqb c d then [(String d EmptyString, rest)] else []
      | EmptyString => []
      end
  | Plus cls => plus cls s
  | Star cls => star cls s
  | Seq r1 r2 =>
      flat_map (fun m1 =>
        map (fun m2 => (fst m1 +++ fst m2, snd m2)) (matches r2 (snd m1)))
        (matches r1 s)
  | Alt r1 r2 => matches r1 s ++ matches r2 s
  end.

(** The [while ((match = regex.exec(s)) !== null)] loop of a global regexp
    whose matches are never empty: the texts [match[0]] of the successive
    leftmost matches.  [inside] counts the code units of the current match
    still to be stepped over. *)
Fixpoint execAll (r : regex) (s : string) (inside : nat) : list string :=
  match s with
  | EmptyString => []
  | String _ rest =>
      match inside with
      | S k => execAll r rest k
      | O =>
          match matches r s with
          | m :: _ => fst m :: execAll r rest (String.length (fst m) - 1)
          | [] => execAll r rest 0
          end
      end
  end.

Definition isWord (c : ascii) : bool :=
  let n := code c in
  between 97 122 n || between 65 90 n || between 48 57 n || (n =? 95).

Definition isWordOrDot (c : ascii) : bool := isWord c || (code c =? 46).
Definition notRParen (c : ascii) : bool := negb (code c =? 41).
Definition notWhiteSpace (c : ascii) : bool := negb (isWhiteSpace c).

(** [arr.sort(cmp)]: a stable sort; [cmp a b <= 0] keeps [a] before [b]. *)
Fixpoint insert {A : Type} (cmp : A -> A -> Z) (x : A) (l : list A) : list A :=
  match l with
  | [] => [x]
  | y :: r => if (cmp x y <=? 0)%Z then x :: l else y :: insert cmp x r
  end.

Fixpoint sort {A : Type} (cmp : A -> A -> Z) (l : list A) : list A :=
  match l with
  | [] => []
  | x :: r => insert cmp x (sort cmp r)
  end.

Definition len (s : string) : Z := Z.of_nat (String.length s).

(** The [for (const x of xs) { body; if (stop) break; }] loop over a state. *)
Fixpoint forOf {A S : Type} (stop : S -> bool) (body : A -> S -> S)
         (xs : list A) (st : S) : S :=
  match xs with
  | [] => st
  | x :: rest =>
      let st' := body x st in
      if stop st' then st' else forOf stop body rest st'
  end.

End JS.

Import JS.

Definition nl : string := String (ascii_of_nat 10) EmptyString.

(** ** Data model *)

(** Modelled from the spec: the parsed diff of the [parse-diff] package, which
    is not part of the repository.  A change is an added, a removed or a
    context line; an added line carries its new-side line number [ln], a
    removed line its old-side number, a context line both. *)
Inductive Change : Type :=
| AddChange (ln : Z) (content : string)
| DelChange (ln : Z) (content : string)
| NormalChange (ln1 ln2 : Z) (content : string).

Record Chunk : Type := { changes : list Change }.

Record File : Type := { chunks : list Chunk; to : string }.

(** One entry of the [comments] array of the model's reply. *)
Record LLMComment : Type :=
  { context : string; comment : string; suggestion : string }.

Record MappedComment : Type :=
  { path : string; line : Z; side : string; body : string }.

(** The review cache file: [{ last_commit, previous_comments }]. *)
Record ReviewCache : Type :=
  { last_commit : string; previous_comments : list MappedComment }.

(** The fields of the pull-request object the bot reads. *)
Record PrDetails : Type := { head_sha : string; base_sha : string }.

(** The body of a [POST .../reviews] request; an absent key is [None]. *)
Record Payload : Type :=
  { p_event : string;
    p_body : option string;
    p_comments : option (list MappedComment) }.

(** ** Effects: the network, the cache file and exceptions *)

Inductive Event : Type :=
| EvGetPrDetails
| EvGetPrDiff
| EvReadCache
| EvGetDiff (base head : string)
| EvLLM (diff : string)
| EvWriteCache (data : ReviewCache)
| EvPost (payload : Payload).

(** What [generateCommentsFromLLM] meets: a failed request, a reply that
    [JSON.parse] rejects or that lacks the expected shape, or a reply. *)
Inductive LLMResult : Type :=
| LLMTransportError
| LLMMalformed
| LLMReply (comments : list LLMComment).

(** The cache file on disk. *)
Inductive CacheFile : Type :=
| Missing
| Undecodable
| Holds (data : ReviewCache).

(** The collaborators of one run; [None] and [false] are a rejected call. *)
Record World : Type :=
  { pulls_get : option PrDetails;
    pulls_get_diff : option string;
    compare : string -> string -> option string;
    chat : string -> LLMResult;
    fs_writable : bool;
    reviews_post : Payload -> bool }.

Record Sys : Type := { events : list Event; cacheFile : CacheFile }.

(** A computation reads the world, updates the system and returns a value or
    throws ([None]). *)
Definition IO (A : Type) : Type := World -> Sys -> Sys * option A.

Definition ret {A : Type} (a : A) : IO A := fun _ s => (s, Some a).

Definition throw {A : Type} : IO A := fun _ s => (s, None).

Definition bind {A B : Type} (m : IO A) (k : A -> IO B) : IO B :=
  fun w s =>
    match m w s with
    | (s', Some a) => k a w s'
    | (s', None) => (s', None)
    end.

Notation "x <- m ;; k" := (bind m (fun x => k))
  (at level 61, m at next level, right associativity).
Notation "m ;;; k" := (bind m (fun _ => k))
  (at level 61, right associativity).

Definition emit (e : Event) : IO unit :=
  fun _ s => ({| events := events s ++ [e]; cacheFile := cacheFile s |}, Some tt).

Definition ask {A : Type} (f : World -> A) : IO A := fun w s => (s, Some (f w)).

Definition ofOption {A : Type} (o : option A) : IO A :=
  match o with Some a => ret a | None => throw end.

(** [try { m } catch (err) { console.error(...) }] *)
Definition tryCatch (m : IO unit) : IO unit :=
  fun w s => (fst (m w s), Some tt).

Definition run (m : IO unit) (w : World) (file : CacheFile) : Sys :=
  fst (m w {| events := []; cacheFile := file |}).

(** The calls shared by the copies of the bot. *)
Definition getPrDetails : IO PrDetails :=
  emit EvGetPrDetails ;;; r <- ask pulls_get ;; ofOption r.

Definition getDiffFromCommits (base head : string) : IO string :=
  emit (EvGetDiff base head) ;;; r <- ask (fun w => compare w base head) ;; ofOption r.

Definition generateCommentsFromLLM (diff : string) : IO (list LLMComment) :=
  emit (EvLLM diff) ;;;
  r <- ask (fun w => chat w diff) ;;
  match r with
  | LLMReply comments => ret comments
  | _ => throw
  end.

Definition saveReviewCache (data : ReviewCache) : IO unit :=
  fun w s =>
    if fs_writable w
    then ({| events := events s ++ [EvWriteCache data]; cacheFile := Holds data |}, Some tt)
    else (s, None).

Definition loadReviewCache : IO (option ReviewCache) :=
  emit EvReadCache ;;;
  fun _ s =>
    (s, Some match cacheFile s with
             | Holds data => Some data
             | _ => None
             end).

Definition post (payload : Payload) : IO unit :=
  emit (EvPost payload) ;;;
  ok <- ask (fun w => reviews_post w payload) ;;
  if ok then ret tt else throw.

(** The state of the scan for one annotation. *)
Record Scan : Type :=
  { keyPhrases : list string; matched : bool; mapped : list MappedComment }.

(** ** src/unnamed/part_001, first document: the current bot *)
Module Current.

(** [/([a-zA-Z0-9_\.]+\([^)]+\))|([a-zA-Z0-9_]+\.[a-zA-Z0-9_]+)|([a-zA-Z0-9_]+\s*===\s*[^\s]+)/g] *)
Definition regex : JS.regex :=
  Alt (Seq (Plus isWordOrDot) (Seq (Lit "(") (Seq (Plus notRParen) (Lit ")"))))
 (Alt (Seq (Plus isWord) (Seq (Lit ".") (Plus isWord)))
      (Seq (Plus isWord) (Seq (Star isWhiteSpace)
        (Seq (Lit "=") (Seq (Lit "=") (Seq (Lit "=")
          (Seq (Star isWhiteSpace) (Plus notWhiteSpace)))))))).

(** Lines 89-102: the key phrases of a normalized context. *)
Definition extractKeyPhrases (codeContext : string) : list string :=
  let keyPhrases : list string := [] in
  let keyPhrases :=
    if includes codeContext "{ ... }"
    then keyPhrases ++ [trim (replace codeContext "{ ... }" "")]
    else keyPhrases in
  if (30 <? String.length codeContext) || (List.length keyPhrases =? 0)
  then (keyPhrases ++ execAll regex codeContext 0) ++ [slice0 30 codeContext]
  else [codeContext].

(** Lines 111-123: the phrase at which the loop over [keyPhrases] breaks. *)
Fixpoint firstPhrase (lineContent : string) (phrases : list string) : option string :=
  match phrases with
  | [] => None
  | phrase :: rest =>
      if truthy phrase && includes lineContent phrase then Some phrase
      else firstPhrase lineContent rest
  end.

(** Lines 109-123: [keyPhrases] sorted in place, then the loop over it; the
    array as the sort leaves it and the phrase at which the loop breaks. *)
Definition phraseLoop (lineContent : string) (keyPhrases : list string)
  : list string * option string :=
  let sorted := sort (fun a b => (len b - len a)%Z) keyPhrases in
  (sorted, firstPhrase lineContent sorted).

(** Lines 106-125: the body of the loop over the changes of a chunk. *)
Definition visit (llmComment : LLMComment) (file : File) (change : Change)
           (st : Scan) : Scan :=
  match change with
  | AddChange ln content =>
      let lineContent := toLowerCase (trim content) in
      let tried := phraseLoop lineContent (keyPhrases st) in
      match snd tried with
      | Some _ =>
          {| keyPhrases := fst tried;
             matched := true;
             mapped := mapped st ++
               [{| path := to file;
                   line := ln;
                   side := "RIGHT";
                   body := "Issue: " +++ comment llmComment +++ nl +++ nl +++
                           "**Suggestion:** " +++ suggestion llmComment |}] |}
      | None => {| keyPhrases := fst tried; matched := matched st; mapped := mapped st |}
      end
  | _ => st
  end.

(** Lines 104-130: files, chunks and changes, each loop left once [matched]. *)
Definition scan (llmComment : LLMComment) (files : list File) (st : Scan) : Scan :=
  forOf matched (fun file =>
    forOf matched (fun chunk =>
      forOf matched (visit llmComment file) (changes chunk))
      (chunks file))
    files st.

(** Lines 84-135: one turn of the loop over [llmComments]; the accumulator is
    [mapped] with the lines written by [console.warn]. *)
Definition step (files : list File) (acc : list MappedComment * list string)
           (llmComment : LLMComment) : list MappedComment * list string :=
  let codeContext := toLowerCase (trim (context llmComment)) in
  let st := scan llmComment files
              {| keyPhrases := extractKeyPhrases codeContext;
                 matched := false;
                 mapped := fst acc |} in
  (mapped st,
   if matched st then snd acc
   else snd acc ++ ["Could not map: " +++ context llmComment]).

Section WithParser.

Variable parse : string -> list File.

Definition mapCommentsToDiff (diff : string) (llmComments : list LLMComment)
  : list MappedComment * list string :=
  let files := parse diff in
  fold_left (step files) llmComments ([], []).

(** Lines 143-152: the payload [submitReview] posts; [None] is [undefined]. *)
Definition submitReview_payload (mappedComments : option (list MappedComment))
           (mode : string) : Payload :=
  let payload := {| p_event := mode; p_body := None; p_comments := None |} in
  if String.eqb mode "APPROVE" then
    {| p_event := p_event payload;
       p_body := Some "LGTM! Approving.";
       p_comments := p_comments payload |}
  else if String.eqb mode "REQUEST_CHANGES" || String.eqb mode "COMMENT" then
    let payload :=
      {| p_event := p_event payload;
         p_body := Some "Automated PR review found critical issues. See inline comments.";
         p_comments := p_comments payload |} in
    match mappedComments with
    | Some l =>
        if 0 <? List.length l
        then {| p_event := p_event payload; p_body := p_body payload; p_comments := Some l |}
        else payload
    | None => payload
    end
  else payload.

Definition submitReview (mappedComments : option (list MappedComment))
           (mode : string) : IO unit :=
  post (submitReview_payload mappedComments mode).

(** Lines 176-187; the token test of lines 181-183 cannot fail once the
    start-up check of the environment has passed. *)
Definition approvePullRequest_payload (body : option string) : Payload :=
  let body :=
    match body with
    | None => "LGTM! Approving."
    | Some b => if String.eqb b "" then "LGTM! Approving." else b
    end in
  {| p_event := "APPROVE"; p_body := Some body; p_comments := None |}.

Definition approvePullRequest (body : option string) : IO unit :=
  post (approvePullRequest_payload body).

Definition sameAnchor (c : MappedComment) (prev : string * Z) : bool :=
  String.eqb (fst prev) (path c) && Z.eqb (snd prev) (line c).

(** Lines 256-315. *)
Definition main : IO unit :=
  tryCatch (
    prDetails <- getPrDetails ;;
    let currentSha := head_sha prDetails in
    previousCache <- loadReviewCache ;;
    let baseSha : option string :=
      match previousCache with
      | None => Some (base_sha prDetails)
      | Some cache =>
          if String.eqb (last_commit cache) currentSha then None
          else Some (last_commit cache)
      end in
    match baseSha with
    | None => ret tt
    | Some baseSha =>
        diff <- getDiffFromCommits baseSha currentSha ;;
        comments <- generateCommentsFromLLM diff ;;
        let mapped := fst (mapCommentsToDiff diff comments) in
        match previousCache with
        | None =>
            saveReviewCache {| last_commit := currentSha; previous_comments := mapped |} ;;;
            let validEvents := ["REQUEST_CHANGES"; "APPROVE"; "COMMENT"] in
            let event := if 0 <? List.length mapped then "REQUEST_CHANGES" else "APPROVE" in
            if negb (existsb (String.eqb event) validEvents) then throw
            else if String.eqb event "REQUEST_CHANGES"
                 then submitReview (Some mapped) event
                 else approvePullRequest (Some "Looks good to me. Approving.")
        | Some cache =>
            let previousLines :=
              map (fun c => (path c, line c)) (previous_comments cache) in
            let relevantFixes :=
              filter (fun c => existsb (sameAnchor c) previousLines) mapped in
            if List.length relevantFixes =? 0 then
              saveReviewCache {| last_commit := currentSha; previous_comments := [] |} ;;;
              approvePullRequest (Some "Looks good to me. Approving.")
            else
              saveReviewCache {| last_commit := currentSha; previous_comments := relevantFixes |} ;;;
              submitReview (Some relevantFixes) "REQUEST_CHANGES"
        end
    end).

End WithParser.

End Current.

(** ** src/unnamed/part_000: the copy with the simpler driver *)
Module Part000.

(** [/([a-zA-Z0-9_\.]+\([^)]+\))|([a-zA-Z0-9_]+\.[a-zA-Z0-9_]+)|([a-zA-Z0-9_]+\s*===\s*[^\s]+)/g] *)
Definition regex : JS.regex :=
  Alt (Seq (Plus isWordOrDot) (Seq (Lit "(") (Seq (Plus notRParen) (Lit ")"))))
 (Alt (Seq (Plus isWord) (Seq (Lit ".") (Plus isWord)))
      (Seq (Plus isWord) (Seq (Star isWhiteSpace)
        (Seq (Lit "=") (Seq (Lit "=") (Seq (Lit "=")
          (Seq (Star isWhiteSpace) (Plus notWhiteSpace)))))))).

(** Lines 89-102: the key phrases of a normalized context. *)
Definition extractKeyPhrases (codeContext : string) : list string :=
  let keyPhrases : list string := [] in
  let keyPhrases :=
    if includes codeContext "{ ... }"
    then keyPhrases ++ [trim (replace codeContext "{ ... }" "")]
    else keyPhrases in
  if (30 <? String.length codeContext) || (List.length keyPhrases =? 0)
  then (keyPhrases ++ execAll regex codeContext 0) ++ [slice0 30 codeContext]
  else [codeContext].

(** Lines 111-123: the phrase at which the loop over [keyPhrases] breaks. *)
Fixpoint firstPhrase (lineContent : string) (phrases : list string) : option string :=
  match phrases with
  | [] => None
  | phrase :: rest =>
      if truthy phrase && includes lineContent phrase then Some phrase
      else firstPhrase lineContent rest
  end.

(** Lines 109-123: [keyPhrases] sorted in place, then the loop over it; the
    array as the sort leaves it and the phrase at which the loop breaks. *)
Definition phraseLoop (lineContent : string) (keyPhrases : list string)
  : list string * option string :=
  let sorted := sort (fun a b => (len b - len a)%Z) keyPhrases in
  (sorted, firstPhrase lineContent sorted).

(** Lines 106-125: the body of the loop over the changes of a chunk. *)
Definition visit (llmComment : LLMComment) (file : File) (change : Change)
           (st : Scan) : Scan :=
  match change with
  | AddChange ln content =>
      let lineContent := toLowerCase (trim content) in
      let tried := phraseLoop lineContent (keyPhrases st) in
      match snd tried with
      | Some _ =>
          {| keyPhrases := fst tried;
             matched := true;
             mapped := mapped st ++
               [{| path := to file;
                   line := ln;
                   side := "RIGHT";
                   body := "Issue: " +++ comment llmComment +++ nl +++ nl +++
                           "**Suggestion:** " +++ suggestion llmComment |}] |}
      | None => {| keyPhrases := fst tried; matched := matched st; mapped := mapped st |}
      end
  | _ => st
  end.

(** Lines 104-130: files, chunks and changes, each loop left once [matched]. *)
Definition scan (llmComment : LLMComment) (files : list File) (st : Scan) : Scan :=
  forOf matched (fun file =>
    forOf matched (fun chunk =>
      forOf matched (visit llmComment file) (changes chunk))
      (chunks file))
    files st.

(** Lines 84-135: one turn of the loop over [llmComments]; the accumulator is
    [mapped] with the lines written by [console.warn]. *)
Definition step (files : list File) (acc : list MappedComment * list string)
           (llmComment : LLMComment) : list MappedComment * list string :=
  let codeContext := toLowerCase (trim (context llmComment)) in
  let st := scan llmComment files
              {| keyPhrases := extractKeyPhrases codeContext;
                 matched := false;
                 mapped := fst acc |} in
  (mapped st,
   if matched st then snd acc
   else snd acc ++ ["Could not map: " +++ context llmComment]).

Section WithParser.

Variable parse : string -> list File.

Definition mapCommentsToDiff (diff : string) (llmComments : list LLMComment)
  : list MappedComment * list string :=
  let files := parse diff in
  fold_left (step files) llmComments ([], []).

(** Lines 143-152. *)
Definition submitReview_payload (mappedComments : option (list MappedComment))
           (mode : string) : Payload :=
  let payload :=
    {| p_event := mode;
       p_body := Some (if String.eqb mode "APPROVE"
                       then "Automated review: All previous issues are resolved. Approving PR."
                       else "Automated PR review found critical issues. See inline comments.");
       p_comments := None |} in
  match mappedComments with
  | Some l =>
      if (String.eqb mode "REQUEST_CHANGES" || String.eqb mode "COMMENT")
         && (0 <? List.length l)
      then {| p_event := p_event payload; p_body := p_body payload; p_comments := Some l |}
      else payload
  | None => payload
  end.

Definition submitReview (mappedComments : option (list MappedComment))
           (mode : string) : IO unit :=
  post (submitReview_payload mappedComments mode).

Definition sameAnchor (c : MappedComment) (prev : string * Z) : bool :=
  String.eqb (fst prev) (path c) && Z.eqb (snd prev) (line c).

(** Lines 216-262; line 221 writes a fixed cache before the cache is read. *)
Definition main : IO unit :=
  tryCatch (
    prDetails <- getPrDetails ;;
    let currentSha := head_sha prDetails in
    saveReviewCache {| last_commit := "954e5d43af10d2cb37a6621cd0d3c609f408e91a";
                       previous_comments := [] |} ;;;
    previousCache <- loadReviewCache ;;
    let baseSha : option string :=
      match previousCache with
      | None => Some (base_sha prDetails)
      | Some cache =>
          if String.eqb (last_commit cache) currentSha then None
          else Some (last_commit cache)
      end in
    match baseSha with
    | None => ret tt
    | Some baseSha =>
        diff <- getDiffFromCommits baseSha currentSha ;;
        comments <- generateCommentsFromLLM diff ;;
        let mapped := fst (mapCommentsToDiff diff comments) in
        match previousCache with
        | None =>
            saveReviewCache {| last_commit := currentSha; previous_comments := mapped |} ;;;
            submitReview (Some mapped)
              (if 0 <? List.length mapped then "REQUEST_CHANGES" else "APPROVE")
        | Some cache =>
            let previousLines :=
              map (fun c => (path c, line c)) (previous_comments cache) in
            let relevantFixes :=
              filter (fun c => existsb (sameAnchor c) previousLines) mapped in
            if List.length relevantFixes =? 0 then
              saveReviewCache {| last_commit := currentSha; previous_comments := [] |} ;;;
              submitReview None "APPROVE"
            else
              saveReviewCache {| last_commit := currentSha; previous_comments := relevantFixes |} ;;;
              submitReview (Some relevantFixes) "REQUEST_CHANGES"
        end
    end).

End WithParser.

End Part000.

(** ** src/unnamed/part_001, second document: the bot without a review cache *)
Module Legacy.

(** [/([a-zA-Z0-9_\.]+\([^)]+\))|([a-zA-Z0-9_]+\.[a-zA-Z0-9_]+)|([a-zA-Z0-9_]+\s*===\s*[^\s]+)/g] *)
Definition regex : JS.regex :=
  Alt (Seq (Plus isWordOrDot) (Seq (Lit "(") (Seq (Plus notRParen) (Lit ")"))))
 (Alt (Seq (Plus isWord) (Seq (Lit ".") (Plus isWord)))
      (Seq (Plus isWord) (Seq (Star isWhiteSpace)
        (Seq (Lit "=") (Seq (Lit "=") (Seq (Lit "=")
          (Seq (Star isWhiteSpace) (Plus notWhiteSpace)))))))).

(** Lines 434-447: the key phrases of a normalized context. *)
Definition extractKeyPhrases (codeContext : string) : list string :=
  let keyPhrases : list string := [] in
  let keyPhrases :=
    if includes codeContext "{ ... }"
    then keyPhrases ++ [trim (replace codeContext "{ ... }" "")]
    else keyPhrases in
  if (30 <? String.length codeContext) || (List.length keyPhrases =? 0)
  then (keyPhrases ++ execAll regex codeContext 0) ++ [slice0 30 codeContext]
  else [codeContext].

(** Lines 456-468: the phrase at which the loop over [keyPhrases] breaks. *)
Fixpoint firstPhrase (lineContent : string) (phrases : list string) : option string :=
  match phrases with
  | [] => None
  | phrase :: rest =>
      if truthy phrase && includes lineContent phrase then Some phrase
      else firstPhrase lineContent rest
  end.

(** Lines 454-468: [keyPhrases] sorted in place, then the loop over it; the
    array as the sort leaves it and the phrase at which the loop breaks. *)
Definition phraseLoop (lineContent : string) (keyPhrases : list string)
  : list string * option string :=
  let sorted := sort (fun a b => (len b - len a)%Z) keyPhrases in
  (sorted, firstPhrase lineContent sorted).

(** Lines 451-470: the body of the loop over the changes of a chunk. *)
Definition visit (llmComment : LLMComment) (file : File) (change : Change)
           (st : Scan) : Scan :=
  match change with
  | AddChange ln content =>
      let lineContent := toLowerCase (trim content) in
      let tried := phraseLoop lineContent (keyPhrases st) in
      match snd tried with
      | Some _ =>
          {| keyPhrases := fst tried;
             matched := true;
             mapped := mapped st ++
               [{| path := to file;
                   line := ln;
                   side := "RIGHT";
                   body := "Issue: " +++ comment llmComment +++ nl +++ nl +++
                           "**Suggestion:** " +++ suggestion llmComment |}] |}
      | None => {| keyPhrases := fst tried; matched := matched st; mapped := mapped st |}
      end
  | _ => st
  end.

(** Lines 449-475: files, chunks and changes, each loop left once [matched]. *)
Definition scan (llmComment : LLMComment) (files : list File) (st : Scan) : Scan :=
  forOf matched (fun file =>
    forOf matched (fun chunk =>
      forOf matched (visit llmComment file) (changes chunk))
      (chunks file))
    files st.

(** Lines 429-480: one turn of the loop over [llmComments]; the accumulator is
    [mapped] with the lines written by [console.warn]. *)
Definition step (files : list File) (acc : list MappedComment * list string)
           (llmComment : LLMComment) : list MappedComment * list string :=
  let codeContext := toLowerCase (trim (context llmComment)) in
  let st := scan llmComment files
              {| keyPhrases := extractKeyPhrases codeContext;
                 matched := false;
                 mapped := fst acc |} in
  (mapped st,
   if matched st then snd acc
   else snd acc ++ ["Could not map: " +++ context llmComment]).

Section WithParser.

Variable parse : string -> list File.

Definition mapCommentsToDiff (diff : string) (llmComments : list LLMComment)
  : list MappedComment * list string :=
  let files := parse diff in
  fold_left (step files) llmComments ([], []).

Definition getPrDiff : IO string :=
  emit EvGetPrDiff ;;; r <- ask pulls_get_diff ;; ofOption r.

(** Lines 488-494; a key whose value is [undefined] is not serialized.  The
    check mark that ends the approval text lies outside the modelled range of
    code units and is left out. *)
Definition submitReview_payload (mappedComments : option (list MappedComment))
           (mode : string) : Payload :=
  {| p_event := mode;
     p_body := Some (if String.eqb mode "APPROVE"
                     then "All issues are resolved. Approving the PR"
                     else "Automated PR review found critical issues. See inline comments.");
     p_comments := if String.eqb mode "REQUEST_CHANGES" then mappedComments else None |}.

Definition submitReview (mappedComments : option (list MappedComment))
           (mode : string) : IO unit :=
  post (submitReview_payload mappedComments mode).

(** Lines 508-532. *)
Definition main : IO unit :=
  tryCatch (
    diff <- getPrDiff ;;
    comments <- generateCommentsFromLLM diff ;;
    let filteredComments :=
      filter (fun c =>
        let text := toLowerCase (comment c) in
        negb (includes text "class" && includes text "instance") &&
        negb (includes text "static method")) comments in
    let mapped := fst (mapCommentsToDiff diff filteredComments) in
    if 0 <? List.length mapped
    then submitReview (Some mapped) "REQUEST_CHANGES"
    else submitReview (Some []) "APPROVE").

End WithParser.

End Legacy.

(** ** Specification vocabulary *)

(** An added line of a parsed diff: path of its file, new-side number, text. *)
Definition AddedLine : Type := (string * Z * string)%type.

Definition addedOfChange (file : File) (change : Change) : list AddedLine :=
  match change with
  | AddChange ln content => [(to file, ln, content)]
  | _ => []
  end.

Definition addedOfChunk (file : File) (chunk : Chunk) : list AddedLine :=
  flat_map (addedOfChange file) (changes chunk).

Definition addedOfFile (file : File) : list AddedLine :=
  flat_map (addedOfChunk file) (chunks file).

(** The added lines of a diff in document order. *)
Definition addedLines (files : list File) : list AddedLine :=
  flat_map addedOfFile files.

Definition normalize (s : string) : string := toLowerCase (trim s).

(** The candidate phrases of an annotation. *)
Definition candidatePhrases (a : LLMComment) : list string :=
  Current.extractKeyPhrases (normalize (context a)).

(** The normalized text of the line contains one of the phrases. *)
Definition containsPhrase (phrases : list string) (l : AddedLine) : bool :=
  existsb (fun k => includes (normalize (snd l)) k) phrases.

(** The normalized text of the line contains one of the non-empty phrases. *)
Definition hits (phrases : list string) (l : AddedLine) : bool :=
  existsb (fun k => truthy k && includes (normalize (snd l)) k) phrases.

(** The comment an annotation leaves on an added line. *)
Definition anchored (a : LLMComment) (l : AddedLine) : MappedComment :=
  {| path := fst (fst l);
     line := snd (fst l);
     side := "RIGHT";
     body := "Issue: " +++ comment a +++ nl +++ nl +++
             "**Suggestion:** " +++ suggestion a |}.

Definition warning (a : LLMComment) : string := "Could not map: " +++ context a.

(** What one annotation adds to the result: its comment, or its warning. *)
Definition outcome (files : list File) (a : LLMComment)
  : list MappedComment * list string :=
  match find (hits (candidatePhrases a)) (addedLines files) with
  | Some l => ([anchored a l], [])
  | None => ([], [warning a])
  end.

(** Where the scan of one annotation starts, and where it may end. *)
Definition Searching (ks : list string) (m0 : list MappedComment) (st : Scan) : Prop :=
  matched st = false /\ mapped st = m0 /\ Permutation ks (keyPhrases st).

Definition Scanned (ks : list string) (m0 : list MappedComment) (a : LLMComment)
           (lines : list AddedLine) (st : Scan) : Prop :=
  match find (hits ks) lines with
  | Some l => matched st = true /\ mapped st = m0 ++ [anchored a l]
  | None => Searching ks m0 st
  end.


(** The submission protocol: no comments on an approval, and never an empty
    comments list. *)
Definition protocol_ok (p : Payload) : bool :=
  match p_comments p with
  | None => true
  | Some l => negb (String.eqb (p_event p) "APPROVE") && (0 <? List.length l)
  end.

(** The events that change something outside the run. *)
Definition isEffect (e : Event) : bool :=
  match e with
  | EvWriteCache _ | EvPost _ => true
  | _ => false
  end.

(** The calls to the external collaborators: the hosting platform and the
    model. *)
Definition isExternalCall (e : Event) : bool :=
  match e with
  | EvReadCache | EvWriteCache _ => false
  | _ => true
  end.

(** The commit the diff of a run starts from. *)
Definition diffBase (pr : PrDetails) (file : CacheFile) : string :=
  match file with
  | Holds cache => last_commit cache
  | _ => base_sha pr
  end.

(** A stage before the matcher fails: the metadata request, the diff request,
    the model request or the decoding of its reply. *)
Definition pipelineFails (w : World) (file : CacheFile) : bool :=
  match pulls_get w with
  | None => true
  | Some pr =>
      match compare w (diffBase pr file) (head_sha pr) with
      | None => true
      | Some diff =>
          match chat w diff with
          | LLMReply _ => false
          | _ => true
          end
      end
  end.

(** The intersection of the mapped comments with the prior open comments by
    (path, line). *)
Definition relevantFixes (mapped prior : list MappedComment) : list MappedComment :=
  filter (fun c => existsb (fun p => String.eqb (path p) (path c) && Z.eqb (line p) (line c)) prior)
         mapped.

(** ** Concrete inputs *)

Definition utils_js : File :=
  {| to := "utils.js";
     chunks := [{| changes := [NormalChange 40 41 " const x = load();";
                               DelChange 41 "-  return foo.bar(x);";
                               AddChange 42 "+  return Foo.Bar(x) || null;";
                               AddChange 43 "+  log(foo.bar(x));"] |}] |}.

Definition nullCheck : LLMComment :=
  {| context := "foo.bar(x)"; comment := "missing null check"; suggestion := "add a guard" |}.

Definition blank : LLMComment :=
  {| context := "  "; comment := "unclear"; suggestion := "explain" |}.

Definition skeleton : LLMComment :=
  {| context := "function handleRequest(req, res) { ... }";
     comment := "no error handling"; suggestion := "wrap in try/catch" |}.

Definition shortSkeleton : LLMComment :=
  {| context := "if (x) { ... }"; comment := "x may be null"; suggestion := "check x" |}.

Definition pr7 : PrDetails := {| head_sha := "c0ffee2"; base_sha := "ba5e000" |}.

(** A world in which every call succeeds and the model flags [foo.bar(x)]. *)
Definition calm : World :=
  {| pulls_get := Some pr7;
     pulls_get_diff := Some "diff";
     compare := fun _ _ => Some "diff";
     chat := fun _ => LLMReply [nullCheck];
     fs_writable := true;
     reviews_post := fun _ => true |}.

(** The same world with a model reply that does not decode. *)
Definition garbled : World :=
  {| pulls_get := Some pr7;
     pulls_get_diff := Some "diff";
     compare := fun _ _ => Some "diff";
     chat := fun _ => LLMMalformed;
     fs_writable := true;
     reviews_post := fun _ => true |}.

(** The same world with a hosting platform that rejects the review. *)
Definition rejecting : World :=
  {| pulls_get := Some pr7;
     pulls_get_diff := Some "diff";
     compare := fun _ _ => Some "diff";
     chat := fun _ => LLMReply [nullCheck];
     fs_writable := true;
     reviews_post := fun _ => false |}.

Definition line42 : MappedComment :=
  anchored nullCheck ("utils.js", 42%Z, "+  return Foo.Bar(x) || null;").

Definition reviewedAt (sha : string) (open : list MappedComment) : ReviewCache :=
  {| last_commit := sha; previous_comments := open |}.

(** ** The rest of the bot: start-up check, cache file name, reply decoding *)

(** [process.env]: a variable that is not set reads as [undefined]. *)
Definition Env : Type := string -> option string.

(** [arr.join(sep)] *)
Fixpoint join (sep : string) (l : list string) : string :=
  match l with
  | [] => ""
  | [x] => x
  | x :: rest => x +++ sep +++ join sep rest
  end.

(** [arr.indexOf(x)], [None] for -1. *)
Fixpoint indexOf (x : string) (l : list string) : option nat :=
  match l with
  | [] => None
  | y :: rest => if String.eqb y x then Some 0 else option_map S (indexOf x rest)
  end.

(** [s.replace(/r/g, rep)] for a regexp whose matches are never empty;
    [inside] counts the code units of the current match still to be skipped. *)
Fixpoint replaceAll (r : regex) (rep : string) (s : string) (inside : nat) : string :=
  match s with
  | EmptyString => EmptyString
  | String c rest =>
      match inside with
      | S k => replaceAll r rep rest k
      | O =>
          match matches r s with
          | m :: _ => rep +++ replaceAll r rep rest (String.length (fst m) - 1)
          | [] => String c (replaceAll r rep rest 0)
          end
      end
  end.

(** part_000 and part_001, lines 12-25, 30-34 and 74-75 (the same text in
    both files). *)
Module Startup.

Definition requiredEnvVars : list string :=
  ["OPENAI_API_KEY"; "REPO_OWNER"; "REPO_NAME"; "PR_NUMBER"; "GITHUB_TOKEN"].

(** [!process.env[key] || process.env[key].trim() === ''] *)
Definition blankVar (env : Env) (key : string) : bool :=
  match env key with
  | None => true
  | Some v => negb (truthy v) || String.eqb (trim v) ""
  end.

Definition missingVars (env : Env) : list string :=
  filter (blankVar env) requiredEnvVars.

(** Lines 23-25: the message of the error thrown at load time, if any. *)
Definition check (env : Env) : option string :=
  if 0 <? List.length (missingVars env)
  then Some ("Missing required environment variables: " +++ join ", " (missingVars env))
  else None.

(** A variable inside a template literal. *)
Definition interpolate (env : Env) (key : string) : string :=
  match env key with
  | Some v => v
  | None => "undefined"
  end.

(** Line 33: the template literal, the file name before [path.join]. *)
Definition cacheBaseName (env : Env) : string :=
  ".bot-pr-review-" +++ interpolate env "REPO_OWNER" +++ "-" +++
  interpolate env "REPO_NAME" +++ "-pr" +++ interpolate env "PR_NUMBER" +++ ".json".

Section WithPath.

(** [path.join] of the Node library. *)
Variable path_join : string -> string -> string.

Definition getCacheFileName (env : Env) : string :=
  let workspace :=
    match env "GITHUB_WORKSPACE" with
    | None => "."
    | Some v => if truthy v then v else "."
    end in
  path_join workspace (cacheBaseName env).

End WithPath.

(** [/```json|```/g] *)
Definition fence : regex :=
  Alt (Seq (Lit "`") (Seq (Lit "`") (Seq (Lit "`")
        (Seq (Lit "j") (Seq (Lit "s") (Seq (Lit "o") (Lit "n")))))))
      (Seq (Lit "`") (Seq (Lit "`") (Lit "`"))).

(** Line 75: [content.replace(/```json|```/g, '').trim()] *)
Definition stripFences (content : string) : string :=
  trim (replaceAll fence "" content 0).

(** part_001, lines 176-187, with the token test of lines 181-183. *)
Definition approvePullRequest (env : Env) (body : option string) : IO unit :=
  let body :=
    match body with
    | None => "LGTM! Approving."
    | Some b => if String.eqb b "" then "LGTM! Approving." else b
    end in
  match env "GITHUB_TOKEN" with
  | None => throw
  | Some token =>
      if negb (truthy token) || String.eqb (trim token) "" then throw
      else post {| p_event := "APPROVE"; p_body := Some body; p_comments := None |}
  end.

End Startup.

(** ** part_001, lines 317-371: the command line *)
Module Cli.

(** The file of collected comments: absent, not JSON, or a list of comments
    as the collect step writes it.  A file that is JSON of another shape is
    not represented; on such a file the script still reads the cache, and
    then throws or posts one review. *)
Inductive ArtifactFile : Type :=
| NoArtifact
| BadArtifact
| Artifact (comments : list MappedComment).

(** The cache file, the trace of calls, and the files of the working
    directory by the path string they are opened with. *)
Record Disk : Type := { sys : Sys; artifacts : string -> ArtifactFile }.

Record CliWorld : Type := { net : World; cwd_writable : bool }.

(** How the script ends: the async function returns, its promise is rejected
    by an uncaught exception, or [process.exit(code)]. *)
Inductive Exit (A : Type) : Type :=
| Returned (a : A)
| Rejected
| Exited (code : nat).

Arguments Returned {A} a.
Arguments Rejected {A}.
Arguments Exited {A} code.

Definition Script (A : Type) : Type := CliWorld -> Disk -> Disk * Exit A.

Definition done {A : Type} (a : A) : Script A := fun _ d => (d, Returned a).

Definition andThen {A B : Type} (m : Script A) (k : A -> Script B) : Script B :=
  fun cw d =>
    match m cw d with
    | (d', Returned a) => k a cw d'
    | (d', Rejected) => (d', Rejected)
    | (d', Exited code) => (d', Exited code)
    end.

Notation "x <~ m ;; k" := (andThen m (fun x => k))
  (at level 61, m at next level, right associativity).
Notation "m ~~> k" := (andThen m (fun _ => k))
  (at level 61, right associativity).

Definition liftIO {A : Type} (m : IO A) : Script A :=
  fun cw d =>
    let r := m (net cw) (sys d) in
    ({| sys := fst r; artifacts := artifacts d |},
     match snd r with
     | Some a => Returned a
     | None => Rejected
     end).

(** [fs.writeFileSync(path, JSON.stringify(comments, null, 2))] *)
Definition writeArtifact (path : string) (comments : list MappedComment) : Script unit :=
  fun cw d =>
    if cwd_writable cw
    then ({| sys := sys d;
             artifacts := fun p => if String.eqb p path then Artifact comments
                                   else artifacts d p |},
          Returned tt)
    else (d, Rejected).

(** [JSON.parse(fs.readFileSync(path, 'utf8'))] after [fs.existsSync(path)] *)
Definition readArtifact (path : string) : Script (list MappedComment) :=
  fun _ d =>
    match artifacts d path with
    | Artifact comments => (d, Returned comments)
    | BadArtifact => (d, Rejected)
    | NoArtifact => (d, Exited 1)
    end.

Definition has (flag : string) (args : list string) : bool :=
  existsb (String.eqb flag) args.

Section WithParser.

Variable parse : string -> list File.

(** Lines 322-339. *)
Definition collectComments : Script unit :=
  prDetails <~ liftIO getPrDetails ;;
  let currentSha := head_sha prDetails in
  previousCache <~ liftIO loadReviewCache ;;
  let baseSha : option string :=
    match previousCache with
    | None => Some (base_sha prDetails)
    | Some cache =>
        if String.eqb (last_commit cache) currentSha then None
        else Some (last_commit cache)
    end in
  match baseSha with
  | None => writeArtifact "review-comments.json" []
  | Some baseSha =>
      diff <~ liftIO (getDiffFromCommits baseSha currentSha) ;;
      comments <~ liftIO (generateCommentsFromLLM diff) ;;
      let mapped := fst (Current.mapCommentsToDiff parse diff comments) in
      writeArtifact "review-comments.json" mapped ~~>
      liftIO (saveReviewCache {| last_commit := currentSha; previous_comments := mapped |})
  end.

(** Lines 340-361. *)
Definition postComments (args : list string) : Script unit :=
  let fileIdx :=
    match indexOf "--post-comments" args with
    | Some i => i + 1
    | None => 0
    end in
  let filePath :=
    match nth_error args fileIdx with
    | Some a => if truthy a then a else "review-comments.json"
    | None => "review-comments.json"
    end in
  mapped <~ readArtifact filePath ;;
  previousCache <~ liftIO loadReviewCache ;;
  match previousCache with
  | None =>
      liftIO (Current.submitReview (Some mapped)
                (if 0 <? List.length mapped then "REQUEST_CHANGES" else "APPROVE"))
  | Some cache =>
      let previousLines := map (fun c => (path c, line c)) (previous_comments cache) in
      let relevantFixes :=
        filter (fun c => existsb (Current.sameAnchor c) previousLines) mapped in
      if List.length relevantFixes =? 0
      then liftIO (Current.approvePullRequest None)
      else liftIO (Current.submitReview (Some relevantFixes) "REQUEST_CHANGES")
  end.

(** Lines 320-370: the dispatch on the arguments. *)
Definition cli (args : list string) : Script unit :=
  if has "--collect-comments" args then collectComments
  else if has "--post-comments" args then postComments args
  else if has "--approve" args then liftIO (Current.approvePullRequest None)
  else liftIO (Current.main parse).

End WithParser.

(** Running the script on a disk whose trace is empty. *)
Definition start (file : CacheFile) (artifacts : string -> ArtifactFile) : Disk :=
  {| sys := {| events := []; cacheFile := file |}; artifacts := artifacts |}.

End Cli.

(** ** More specification vocabulary *)

(** The regexp cannot match the empty string. *)
Fixpoint consuming (r : regex) : bool :=
  match r with
  | Lit _ => true
  | Plus _ => true
  | Star _ => false
  | Seq r1 r2 => consuming r1 || consuming r2
  | Alt r1 r2 => consuming r1 && consuming r2
  end.

(** The filter of the cache-less bot on the annotations of the model. *)
Definition legacyKeeps (c : LLMComment) : bool :=
  let text := toLowerCase (comment c) in
  negb (includes text "class" && includes text "instance") &&
  negb (includes text "static method").

(** What a review says about a list of open comments. *)
Definition verdict (open : list MappedComment) : string :=
  match open with
  | [] => "APPROVE"
  | _ :: _ => "REQUEST_CHANGES"
  end.

Definition attached (open : list MappedComment) : option (list MappedComment) :=
  match open with
  | [] => None
  | _ :: _ => Some open
  end.

(** The regexp of a literal text [c w]. *)
Fixpoint word (c : ascii) (w : string) : regex :=
  match w with
  | EmptyString => Lit c
  | String d w' => Seq (Lit c) (word d w')
  end.

(** The reply of the model with its fences removed, before it is trimmed. *)
Definition unfenced (s : string) : string := replaceAll Startup.fence "" s 0.

(** An environment for a pull request. *)
Definition envOf (owner repo pr : string) : Env :=
  fun key =>
    if String.eqb key "OPENAI_API_KEY" then Some "sk-test"
    else if String.eqb key "REPO_OWNER" then Some owner
    else if String.eqb key "REPO_NAME" then Some repo
    else if String.eqb key "PR_NUMBER" then Some pr
    else if String.eqb key "GITHUB_TOKEN" then Some "ghp_test"
    else None.

(** The calm world with a writable working directory. *)
Definition calmCli : Cli.CliWorld := {| Cli.net := calm; Cli.cwd_writable := true |}.

(** A working directory in which the collect step has left line 42. *)
Definition collected42 : string -> Cli.ArtifactFile :=
  fun p => if String.eqb p "review-comments.json" then Cli.Artifact [line42]
           else Cli.NoArtifact.

(** No files of collected comments in the working directory. *)
Definition noArtifacts : string -> Cli.ArtifactFile := fun _ => Cli.NoArtifact.

(** An environment with the five required variables. *)
Definition ciEnv : Env :=
  fun key =>
    if String.eqb key "OPENAI_API_KEY" then Some "sk-test"
    else if String.eqb key "REPO_OWNER" then Some "acme"
    else if String.eqb key "REPO_NAME" then Some "shop"
    else if String.eqb key "PR_NUMBER" then Some "7"
    else if String.eqb key "GITHUB_TOKEN" then Some "ghp_test"
    else None.

(** ** The sort and the phrase loop *)

Section Sorting.

Context {A : Type} (cmp : A -> A -> Z).

Lemma insert_perm (x : A) (l : list A) : Permutation (x :: l) (insert cmp x l).
Proof.
  induction l as [|y r IH]; simpl.
  - apply Permutation_refl.
  - destruct (cmp x y <=? 0)%Z.
    + apply Permutation_refl.
    + eapply perm_trans; [apply perm_swap|]. now apply perm_skip.
Qed.

Lemma sort_perm (l : list A) : Permutation l (sort cmp l).
Proof.
  induction l as [|x r IH]; simpl.
  - apply perm_nil.
  - eapply perm_trans; [apply perm_skip, IH | apply insert_perm].
Qed.

End Sorting.

Lemma existsb_perm {A : Type} (f : A -> bool) (l l' : list A) :
  Permutation l l' -> existsb f l = existsb f l'.
Proof.
  induction 1; simpl; try congruence.
  - now rewrite !orb_assoc, (orb_comm (f y)).
Qed.

Lemma find_app {A : Type} (f : A -> bool) (l1 l2 : list A) :
  find f (l1 ++ l2) = match find f l1 with Some x => Some x | None => find f l2 end.
Proof.
  induction l1 as [|x r IH]; simpl; [reflexivity|].
  now destruct (f x).
Qed.



Lemma firstPhrase_none (lineContent : string) (ks : list string) :
  Current.firstPhrase lineContent ks = None <->
  existsb (fun k => truthy k && includes lineContent k) ks = false.
Proof.
  induction ks as [|k r IH]; simpl; [tauto|].
  destruct (truthy k && includes lineContent k); simpl; [split; discriminate | exact IH].
Qed.



(** ** The scan of one annotation *)

Section Scanning.

Variables (ks : list string) (m0 : list MappedComment) (a : LLMComment).

Lemma forOf_scanned {X : Type} (body : X -> Scan -> Scan) (linesOf : X -> list AddedLine) :
  (forall x st, Searching ks m0 st -> Scanned ks m0 a (linesOf x) (body x st)) ->
  forall xs st, Searching ks m0 st ->
                Scanned ks m0 a (flat_map linesOf xs) (forOf matched body xs st).
Proof.
  intros Hbody xs. induction xs as [|x rest IH]; intros st Hst; simpl.
  - exact Hst.
  - specialize (Hbody x st Hst). unfold Scanned in *.
    rewrite find_app.
    destruct (find (hits ks) (linesOf x)) as [l|].
    + destruct Hbody as [Hm Hmap]. rewrite Hm. now split.
    + pose proof Hbody as [Hm _]. rewrite Hm. now apply IH.
Qed.

Lemma visit_scanned (file : File) (change : Change) (st : Scan) :
  Searching ks m0 st ->
  Scanned ks m0 a (addedOfChange file change) (Current.visit a file change st).
Proof.
  intros (Hm & Hmap & Hperm).
  destruct change as [ln content | ln content | ln1 ln2 content];
    unfold Scanned; simpl; try (now repeat split).
  unfold Current.phraseLoop. cbn [fst snd].
  set (sorted := sort _ (keyPhrases st)).
  assert (Hp : Permutation ks sorted).
  { eapply perm_trans; [exact Hperm | apply sort_perm]. }
  unfold hits at 1. simpl. fold (normalize content).
  rewrite (existsb_perm _ _ _ Hp).
  destruct (Current.firstPhrase (normalize content) sorted) as [r|] eqn:E.
  - destruct (existsb _ sorted) eqn:Ex.
    + simpl. split; [reflexivity|]. now rewrite Hmap.
    + apply firstPhrase_none in Ex. congruence.
  - apply firstPhrase_none in E. unfold normalize in *. rewrite E.
    repeat split; auto.
Qed.

Lemma scan_scanned (files : list File) (st : Scan) :
  Searching ks m0 st ->
  Scanned ks m0 a (addedLines files) (Current.scan a files st).
Proof.
  unfold Current.scan, addedLines.
  apply forOf_scanned with (linesOf := addedOfFile).
  intros file. unfold addedOfFile.
  apply forOf_scanned with (linesOf := addedOfChunk file).
  intros chunk. unfold addedOfChunk.
  apply forOf_scanned with (linesOf := addedOfChange file).
  intros change. apply visit_scanned.
Qed.

End Scanning.

Lemma step_outcome (files : list File) (acc : list MappedComment * list string)
      (a : LLMComment) :
  Current.step files acc a =
  (fst acc ++ fst (outcome files a), snd acc ++ snd (outcome files a)).
Proof.
  unfold Current.step, outcome.
  set (st0 := {| keyPhrases := _; matched := false; mapped := fst acc |}).
  pose proof (scan_scanned (candidatePhrases a) (fst acc) a files st0) as H.
  unfold Scanned in H.
  destruct (find (hits (candidatePhrases a)) (addedLines files)) as [l|].
  - destruct H as [Hm Hmap]; [repeat split; apply Permutation_refl|].
    rewrite Hm, Hmap. simpl. now rewrite app_nil_r.
  - destruct H as (Hm & Hmap & _); [repeat split; apply Permutation_refl|].
    rewrite Hm, Hmap. simpl. now rewrite app_nil_r.
Qed.

Lemma fold_step (files : list File) (annotations : list LLMComment)
      (acc : list MappedComment * list string) :
  fold_left (Current.step files) annotations acc =
  (fst acc ++ flat_map (fun a => fst (outcome files a)) annotations,
   snd acc ++ flat_map (fun a => snd (outcome files a)) annotations).
Proof.
  revert acc. induction annotations as [|a rest IH]; intros acc; simpl.
  - rewrite !app_nil_r. now destruct acc.
  - rewrite IH, step_outcome. simpl. now rewrite <- !app_assoc.
Qed.

Lemma mapCommentsToDiff_outcomes (parse : string -> list File) (diff : string)
      (annotations : list LLMComment) :
  Current.mapCommentsToDiff parse diff annotations =
  (flat_map (fun a => fst (outcome (parse diff) a)) annotations,
   flat_map (fun a => snd (outcome (parse diff) a)) annotations).
Proof.
  unfold Current.mapCommentsToDiff. now rewrite fold_step.
Qed.

Lemma addedLines_origin (files : list File) (p : string) (ln : Z) (content : string) :
  In (p, ln, content) (addedLines files) ->
  exists file chunk,
    In file files /\ In chunk (chunks file) /\
    In (AddChange ln content) (changes chunk) /\ p = to file.
Proof.
  unfold addedLines, addedOfFile, addedOfChunk. intros H.
  apply in_flat_map in H as (file & Hf & H).
  apply in_flat_map in H as (chunk & Hc & H).
  apply in_flat_map in H as (change & Hch & H).
  exists file, chunk.
  destruct change; simpl in H; try contradiction.
  destruct H as [[= <- <- <-] | []]. auto.
Qed.

(** ** The line matcher *)

(** Scenario A of the specification: the annotation lands on line 42. *)
Example scenario_A :
  Current.mapCommentsToDiff (fun _ => [utils_js]) "" [nullCheck] =
  ([{| path := "utils.js"; line := 42%Z; side := "RIGHT";
       body := "Issue: missing null check" +++ nl +++ nl +++ "**Suggestion:** add a guard" |}],
   []).
Proof. reflexivity. Qed.

(** C5, as stated, fails: with a blank context the only candidate phrase is
    the empty string, which every line contains, and yet the annotation is
    dropped, because the matcher skips empty phrases. *)
Lemma matcher_blank_context_unmapped :
  ~ (forall (parse : string -> list File) (diff : string) (a : LLMComment)
            (pre : list AddedLine) (l : AddedLine) (post : list AddedLine),
        addedLines (parse diff) = pre ++ l :: post ->
        (forall x, In x pre -> containsPhrase (candidatePhrases a) x = false) ->
        containsPhrase (candidatePhrases a) l = true ->
        fst (Current.mapCommentsToDiff parse diff [a]) = [anchored a l]).
Proof.
  intros H.
  specialize (H (fun _ => [utils_js]) "" blank []
                ("utils.js", 42%Z, "+  return Foo.Bar(x) || null;")
                [("utils.js", 43%Z, "+  log(foo.bar(x));")]
                eq_refl (fun x F => match F with end) eq_refl).
  vm_compute in H. discriminate H.
Qed.

(** C5 (amended): an annotation is anchored on the first added line, in diff
    order, whose normalized text contains one of its non-empty candidate
    phrases, and on no other; an annotation with no such line only leaves a
    warning; so each annotation yields at most one comment, and the result
    for a list of annotations is the concatenation of their results. *)
Theorem matcher_first_added_line (parse : string -> list File) (diff : string)
        (a : LLMComment) :
  (forall pre l post,
      addedLines (parse diff) = pre ++ l :: post ->
      (forall x, In x pre -> hits (candidatePhrases a) x = false) ->
      hits (candidatePhrases a) l = true ->
      Current.mapCommentsToDiff parse diff [a] = ([anchored a l], []))
  /\ ((forall x, In x (addedLines (parse diff)) -> hits (candidatePhrases a) x = false) ->
      Current.mapCommentsToDiff parse diff [a] = ([], [warning a]))
  /\ List.length (fst (Current.mapCommentsToDiff parse diff [a])) <= 1
  /\ (forall annotations,
        fst (Current.mapCommentsToDiff parse diff annotations) =
        flat_map (fun b => fst (Current.mapCommentsToDiff parse diff [b])) annotations).
Proof.
  repeat split.
  - intros pre l post Hl Hpre Hhit.
    rewrite mapCommentsToDiff_outcomes. simpl. rewrite !app_nil_r.
    unfold outcome. rewrite Hl, find_app.
    assert (Hn : find (hits (candidatePhrases a)) pre = None).
    { clear Hl. induction pre as [|x r IH]; simpl; [reflexivity|].
      rewrite (Hpre x (or_introl eq_refl)). apply IH.
      intros y Hy. apply Hpre. now right. }
    rewrite Hn. simpl. now rewrite Hhit.
  - intros Hnone.
    rewrite mapCommentsToDiff_outcomes. simpl. rewrite !app_nil_r.
    unfold outcome.
    destruct (find _ _) as [l|] eqn:E; [|reflexivity].
    apply find_some in E as [Hin Hhit]. rewrite (Hnone l Hin) in Hhit. discriminate.
  - rewrite mapCommentsToDiff_outcomes. simpl. rewrite app_nil_r.
    unfold outcome. destruct (find _ _); simpl; lia.
  - intros annotations. rewrite mapCommentsToDiff_outcomes. cbn [fst].
    apply flat_map_ext. intros b.
    rewrite mapCommentsToDiff_outcomes. cbn [fst flat_map]. now rewrite app_nil_r.
Qed.

Lemma matcher_first_added_line_witness :
  Current.mapCommentsToDiff (fun _ => [utils_js]) "" [nullCheck] =
  ([anchored nullCheck ("utils.js", 42%Z, "+  return Foo.Bar(x) || null;")], []).
Proof.
  apply (proj1 (matcher_first_added_line (fun _ => [utils_js]) "" nullCheck)
           [] _ [("utils.js", 43%Z, "+  log(foo.bar(x));")]).
  - reflexivity.
  - intros x [].
  - reflexivity.
Defined.

(** C6: every comment the matcher returns sits on an added change of a file
    of the parsed diff: its path is that file's, its line is the new-side
    number of that added change (not a removed or context change), and its
    side is RIGHT. *)
Theorem mapped_comment_on_added_line (parse : string -> list File) (diff : string)
        (annotations : list LLMComment) (m : MappedComment) :
  In m (fst (Current.mapCommentsToDiff parse diff annotations)) ->
  exists file chunk content,
    In file (parse diff) /\ In chunk (chunks file) /\
    In (AddChange (line m) content) (changes chunk) /\
    path m = to file /\ side m = "RIGHT".
Proof.
  rewrite mapCommentsToDiff_outcomes. simpl. intros H.
  apply in_flat_map in H as (a & _ & H).
  unfold outcome in H.
  destruct (find _ _) as [[[p ln] content]|] eqn:E; simpl in H; [|contradiction].
  destruct H as [<- | []].
  apply find_some in E as [Hin _].
  apply addedLines_origin in Hin as (file & chunk & Hf & Hc & Hch & ->).
  exists file, chunk, content. simpl. auto.
Qed.

Lemma mapped_comment_on_added_line_witness :
  exists file chunk content,
    In file [utils_js] /\ In chunk (chunks file) /\
    In (AddChange 42%Z content) (changes chunk) /\
    "utils.js" = to file /\ "RIGHT" = "RIGHT".
Proof.
  apply (mapped_comment_on_added_line (fun _ => [utils_js]) "" [nullCheck]
           (anchored nullCheck ("utils.js", 42%Z, "+  return Foo.Bar(x) || null;"))).
  simpl. left. reflexivity.
Defined.

(** ** The phrase extractor *)

(** C7, as stated, fails: for a long context with the marker the stripped
    remainder is one candidate phrase among several. *)
Lemma marker_remainder_not_single :
  ~ (forall a : LLMComment,
        includes (normalize (context a)) "{ ... }" = true ->
        candidatePhrases a = [trim (replace (normalize (context a)) "{ ... }" "")]).
Proof.
  intros H. specialize (H skeleton eq_refl). vm_compute in H. discriminate H.
Qed.

(** C7 (amended): when the normalized context contains the marker and is
    longer than 30 characters, the candidate phrases are the context with the
    first marker removed and trimmed, then the pattern matches, then the first
    30 characters of the context. *)
Theorem marker_remainder_first_candidate (a : LLMComment) :
  includes (normalize (context a)) "{ ... }" = true ->
  30 < String.length (normalize (context a)) ->
  candidatePhrases a =
  trim (replace (normalize (context a)) "{ ... }" "")
    :: execAll Current.regex (normalize (context a)) 0
    ++ [slice0 30 (normalize (context a))].
Proof.
  intros Hmark Hlong. unfold candidatePhrases, Current.extractKeyPhrases.
  rewrite Hmark. apply Nat.ltb_lt in Hlong. rewrite Hlong. reflexivity.
Qed.

Lemma marker_remainder_first_candidate_witness :
  candidatePhrases skeleton =
  ["function handlerequest(req, res)"; "handlerequest(req, res)";
   "function handlerequest(req, re"].
Proof.
  apply (marker_remainder_first_candidate skeleton).
  - reflexivity.
  - vm_compute. lia.
Defined.

(** For a context of at most 30 characters with the marker, line 101
    replaces the stripped phrase by the whole context, marker included. *)
Lemma marker_short_context_overwritten :
  candidatePhrases shortSkeleton = ["if (x) { ... }"].
Proof. reflexivity. Qed.



(** C10: the three copies of the mapping function return the same result
    for every parser, diff text and annotation list. *)
Theorem mapCommentsToDiff_copies_agree (parse : string -> list File) (diff : string)
        (llmComments : list LLMComment) :
  Part000.mapCommentsToDiff parse diff llmComments =
    Current.mapCommentsToDiff parse diff llmComments
  /\ Legacy.mapCommentsToDiff parse diff llmComments =
    Current.mapCommentsToDiff parse diff llmComments.
Proof.
  split.
  - unfold Part000.mapCommentsToDiff, Current.mapCommentsToDiff.
    generalize (@nil MappedComment, @nil string).
    induction llmComments as [|c rest IH]; intros acc; simpl; [reflexivity|].
    apply IH.
  - unfold Legacy.mapCommentsToDiff, Current.mapCommentsToDiff.
    generalize (@nil MappedComment, @nil string).
    induction llmComments as [|c rest IH]; intros acc; simpl; [reflexivity|].
    apply IH.
Qed.

(** ** Submission payloads *)

Lemma eqb_not_approve (mode : string) :
  String.eqb mode "REQUEST_CHANGES" || String.eqb mode "COMMENT" = true ->
  String.eqb mode "APPROVE" = false.
Proof.
  intros H. apply orb_prop in H as [H | H]; apply String.eqb_eq in H; now subst.
Qed.

Ltac io_step := cbn -[Nat.ltb Nat.eqb String.eqb].

Ltac run_io :=
  unfold run, Current.main, Part000.main, Legacy.main, tryCatch,
         Current.submitReview, Current.approvePullRequest, Part000.submitReview,
         Legacy.submitReview, Legacy.getPrDiff, getPrDetails, getDiffFromCommits,
         generateCommentsFromLLM, saveReviewCache, loadReviewCache, post,
         bind, emit, ask, ofOption, ret, throw;
  io_step.

(** C9: a payload with event APPROVE carries no comments list, and a payload
    carries a comments list only when the list is non-empty: for every call
    of the current [submitReview] and [approvePullRequest], for every call of
    the [submitReview] of part_000, and for every submission a run of the
    cache-less bot makes. *)
Theorem submissions_respect_protocol :
  (forall mappedComments mode,
      protocol_ok (Current.submitReview_payload mappedComments mode) = true)
  /\ (forall body, protocol_ok (Current.approvePullRequest_payload body) = true)
  /\ (forall mappedComments mode,
        protocol_ok (Part000.submitReview_payload mappedComments mode) = true)
  /\ (forall parse w file p,
        In (EvPost p) (events (run (Legacy.main parse) w file)) -> protocol_ok p = true).
Proof.
  split; [|split; [|split]].
  - intros mc mode. unfold Current.submitReview_payload, protocol_ok.
    destruct (String.eqb mode "APPROVE") eqn:Ea; [reflexivity|].
    destruct (String.eqb mode "REQUEST_CHANGES" || String.eqb mode "COMMENT");
      [|reflexivity].
    destruct mc as [l|]; [|reflexivity].
    destruct (0 <? List.length l) eqn:El; [|reflexivity].
    cbn [p_comments p_event]. now rewrite Ea, El.
  - intros body. reflexivity.
  - intros mc mode. unfold Part000.submitReview_payload, protocol_ok.
    destruct mc as [l|]; [|reflexivity].
    destruct (String.eqb mode "REQUEST_CHANGES" || String.eqb mode "COMMENT") eqn:Em;
      [|reflexivity].
    cbn [andb].
    destruct (0 <? List.length l) eqn:El; [|reflexivity].
    cbn [p_comments p_event]. now rewrite (eqb_not_approve _ Em), El.
  - intros parse w file p. destruct w as [pg pgd cmp ch fw rp]. run_io.
    destruct pgd as [diff|]; io_step; [|intros [H | []]; discriminate H].
    destruct (ch diff) as [| |comments]; io_step;
      try (intros [H | [H | []]]; discriminate H).
    set (mapped := fst (Legacy.mapCommentsToDiff parse diff _)).
    destruct (0 <? List.length mapped) eqn:El; io_step;
      destruct (rp _); io_step; intros [H | [H | [H | []]]]; try discriminate H;
      injection H as <-; unfold protocol_ok; io_step; auto.
Qed.

Lemma submissions_respect_protocol_witness :
  protocol_ok {| p_event := "REQUEST_CHANGES";
                 p_body := Some "Automated PR review found critical issues. See inline comments.";
                 p_comments := Some [line42] |} = true.
Proof.
  apply (proj2 (proj2 (proj2 submissions_respect_protocol))
           (fun _ => [utils_js]) calm Missing).
  cbn. right. right. left. reflexivity.
Defined.

(** The [submitReview] of the cache-less bot would post an empty comments
    list with REQUEST_CHANGES; its driver never calls it that way. *)
Lemma legacy_submitReview_empty_list :
  protocol_ok (Legacy.submitReview_payload (Some []) "REQUEST_CHANGES") = false.
Proof. reflexivity. Qed.

(** ** The orchestrator *)

Lemma relevantFixes_source (mapped prior : list MappedComment) :
  filter (fun c => existsb (Current.sameAnchor c) (map (fun c => (path c, line c)) prior))
         mapped
  = relevantFixes mapped prior.
Proof.
  unfold relevantFixes. apply filter_ext. intros c.
  induction prior as [|p r IH]; simpl; [reflexivity|]. now rewrite IH.
Qed.

Lemma relevantFixes_spec (mapped prior : list MappedComment) (m : MappedComment) :
  In m (relevantFixes mapped prior) <->
  In m mapped /\ exists p, In p prior /\ path p = path m /\ line p = line m.
Proof.
  unfold relevantFixes. rewrite filter_In, existsb_exists.
  split; intros [Hin (p & Hp & H)]; (split; [exact Hin|]); exists p; (split; [exact Hp|]).
  - apply andb_prop in H as [H1 H2].
    apply String.eqb_eq in H1. apply Z.eqb_eq in H2. auto.
  - destruct H as [-> ->]. now rewrite String.eqb_refl, Z.eqb_refl.
Qed.

(** C1: on a re-review (a cache exists and its commit is not the head), when
    the calls succeed, the run fetches the diff from the cached commit to the
    head, keeps the mapped comments whose (path, line) equals that of a prior
    open comment, and then: with none kept, writes an empty open list and
    posts an approval without comments; otherwise writes the kept comments
    and posts REQUEST_CHANGES with exactly them. *)
Theorem rereview_intersects_open_comments (parse : string -> list File) (w : World)
        (cache : ReviewCache) (pr : PrDetails) (diff : string)
        (comments : list LLMComment) :
  pulls_get w = Some pr ->
  last_commit cache <> head_sha pr ->
  compare w (last_commit cache) (head_sha pr) = Some diff ->
  chat w diff = LLMReply comments ->
  fs_writable w = true ->
  let mapped := fst (Current.mapCommentsToDiff parse diff comments) in
  let fixes := relevantFixes mapped (previous_comments cache) in
  let fetched := [EvGetPrDetails; EvReadCache;
                  EvGetDiff (last_commit cache) (head_sha pr); EvLLM diff] in
  (forall m, In m fixes <->
             In m mapped /\
             exists p, In p (previous_comments cache) /\ path p = path m /\ line p = line m)
  /\ run (Current.main parse) w (Holds cache) =
     match fixes with
     | [] =>
         {| events := fetched ++
              [EvWriteCache (reviewedAt (head_sha pr) []);
               EvPost {| p_event := "APPROVE";
                         p_body := Some "Looks good to me. Approving.";
                         p_comments := None |}];
            cacheFile := Holds (reviewedAt (head_sha pr) []) |}
     | _ :: _ =>
         {| events := fetched ++
              [EvWriteCache (reviewedAt (head_sha pr) fixes);
               EvPost {| p_event := "REQUEST_CHANGES";
                         p_body := Some "Automated PR review found critical issues. See inline comments.";
                         p_comments := Some fixes |}];
            cacheFile := Holds (reviewedAt (head_sha pr) fixes) |}
     end.
Proof.
  intros Hpr Hne Hdiff Hchat Hfs mapped fixes fetched.
  split; [intros m; apply relevantFixes_spec|].
  destruct w as [pg pgd cmp ch fw rp]. cbn in Hpr, Hdiff, Hchat, Hfs. subst pg fw.
  apply String.eqb_neq in Hne.
  run_io. rewrite Hne. io_step. rewrite Hdiff. io_step. rewrite Hchat. io_step.
  rewrite relevantFixes_source. fold mapped. fold fixes.
  clearbody fixes. subst fetched.
  destruct fixes as [|m rest]; cbn; destruct (rp _); reflexivity.
Qed.

Lemma rereview_intersects_open_comments_witness :
  run (Current.main (fun _ => [utils_js])) calm (Holds (reviewedAt "0ld5ha" [line42])) =
  {| events := [EvGetPrDetails; EvReadCache; EvGetDiff "0ld5ha" "c0ffee2"; EvLLM "diff";
                EvWriteCache (reviewedAt "c0ffee2" [line42]);
                EvPost {| p_event := "REQUEST_CHANGES";
                          p_body := Some "Automated PR review found critical issues. See inline comments.";
                          p_comments := Some [line42] |}];
     cacheFile := Holds (reviewedAt "c0ffee2" [line42]) |}.
Proof.
  apply (proj2 (rereview_intersects_open_comments (fun _ => [utils_js]) calm
                  (reviewedAt "0ld5ha" [line42]) pr7 "diff" [nullCheck]
                  eq_refl ltac:(discriminate) eq_refl eq_refl eq_refl)).
Defined.

(** The first review of the current bot (part_001): without a readable
    cache, when the calls succeed, the diff runs from the base commit to the
    head, the cache becomes the head with the mapped comments, and the run
    posts REQUEST_CHANGES with them, or an approval without comments when
    there are none. *)
Lemma first_review_current (parse : string -> list File) (w : World)
      (file : CacheFile) (pr : PrDetails) (diff : string) (comments : list LLMComment) :
  pulls_get w = Some pr ->
  (file = Missing \/ file = Undecodable) ->
  compare w (base_sha pr) (head_sha pr) = Some diff ->
  chat w diff = LLMReply comments ->
  fs_writable w = true ->
  let mapped := fst (Current.mapCommentsToDiff parse diff comments) in
  run (Current.main parse) w file =
  {| events :=
       [EvGetPrDetails; EvReadCache; EvGetDiff (base_sha pr) (head_sha pr); EvLLM diff;
        EvWriteCache (reviewedAt (head_sha pr) mapped);
        EvPost match mapped with
               | [] => {| p_event := "APPROVE";
                          p_body := Some "Looks good to me. Approving.";
                          p_comments := None |}
               | _ :: _ =>
                   {| p_event := "REQUEST_CHANGES";
                      p_body := Some "Automated PR review found critical issues. See inline comments.";
                      p_comments := Some mapped |}
               end];
     cacheFile := Holds (reviewedAt (head_sha pr) mapped) |}.
Proof.
  intros Hpr Hfile Hdiff Hchat Hfs mapped.
  destruct w as [pg pgd cmp ch fw rp]. cbn in Hpr, Hdiff, Hchat, Hfs. subst pg fw.
  destruct Hfile as [-> | ->]; run_io; rewrite Hdiff; io_step; rewrite Hchat; io_step;
    fold mapped; clearbody mapped;
    destruct mapped as [|m rest]; cbn; destruct (rp _); reflexivity.
Qed.

(** C2 in part_000: started without any cache and with an annotation that
    maps to line 42, the run first writes the fixed cache of line 221, reads
    it back, takes the re-review path from that commit, and approves; the
    claim has the diff start at the base commit, the review request changes
    with the mapped comment, and the cache keep it. *)
Theorem part000_first_review_lost :
  Current.mapCommentsToDiff (fun _ => [utils_js]) "diff" [nullCheck] = ([line42], [])
  /\ run (Part000.main (fun _ => [utils_js])) calm Missing =
     {| events :=
          [EvGetPrDetails;
           EvWriteCache (reviewedAt "954e5d43af10d2cb37a6621cd0d3c609f408e91a" []);
           EvReadCache;
           EvGetDiff "954e5d43af10d2cb37a6621cd0d3c609f408e91a" "c0ffee2";
           EvLLM "diff";
           EvWriteCache (reviewedAt "c0ffee2" []);
           EvPost {| p_event := "APPROVE";
                     p_body := Some "Automated review: All previous issues are resolved. Approving PR.";
                     p_comments := None |}];
        cacheFile := Holds (reviewedAt "c0ffee2" []) |}
  /\ run (Current.main (fun _ => [utils_js])) calm Missing =
     {| events :=
          [EvGetPrDetails; EvReadCache; EvGetDiff "ba5e000" "c0ffee2"; EvLLM "diff";
           EvWriteCache (reviewedAt "c0ffee2" [line42]);
           EvPost {| p_event := "REQUEST_CHANGES";
                     p_body := Some "Automated PR review found critical issues. See inline comments.";
                     p_comments := Some [line42] |}];
        cacheFile := Holds (reviewedAt "c0ffee2" [line42]) |}.
Proof. split; [reflexivity | split; reflexivity]. Qed.

(** C3, as stated, fails: an up-to-date run still asks the hosting platform
    for the pull request, so it does not make zero external calls. *)
Lemma up_to_date_run_fetches_metadata :
  ~ (forall (parse : string -> list File) (w : World) (cache : ReviewCache)
            (pr : PrDetails),
        pulls_get w = Some pr ->
        last_commit cache = head_sha pr ->
        filter isExternalCall (events (run (Current.main parse) w (Holds cache))) = []).
Proof.
  intros H.
  specialize (H (fun _ => [utils_js]) calm (reviewedAt "c0ffee2" [line42]) pr7
                eq_refl eq_refl).
  vm_compute in H. discriminate H.
Qed.

(** C3 (amended): when the cached commit is the head commit, the run
    consists of the metadata request and the cache read, and nothing else:
    no diff request, no model call, no submission, no cache write; the cache
    file is unchanged. *)
Theorem up_to_date_run_is_noop (parse : string -> list File) (w : World)
        (cache : ReviewCache) (pr : PrDetails) :
  pulls_get w = Some pr ->
  last_commit cache = head_sha pr ->
  run (Current.main parse) w (Holds cache) =
  {| events := [EvGetPrDetails; EvReadCache]; cacheFile := Holds cache |}.
Proof.
  intros Hpr Heq. destruct w as [pg pgd cmp ch fw rp]. cbn in Hpr. subst pg.
  apply String.eqb_eq in Heq. run_io. rewrite Heq. reflexivity.
Qed.

Lemma up_to_date_run_is_noop_witness :
  run (Current.main (fun _ => [utils_js])) calm (Holds (reviewedAt "c0ffee2" [line42])) =
  {| events := [EvGetPrDetails; EvReadCache];
     cacheFile := Holds (reviewedAt "c0ffee2" [line42]) |}.
Proof.
  apply (up_to_date_run_is_noop (fun _ => [utils_js]) calm
           (reviewedAt "c0ffee2" [line42]) pr7 eq_refl eq_refl).
Defined.

Ltac no_such_event :=
  cbn;
  let H := fresh "Hin" in
  intros H;
  repeat (destruct H as [H | H]; [discriminate H|]);
  destruct H.

(** C4: when the metadata request, the diff request, the model request or
    the decoding of its reply fails, the run writes no cache and posts no
    review, and the cache file is as it was; and a cache write, when there is
    one, comes after the metadata, the diff and the decoded reply have all
    been obtained, and records the head commit. *)
Theorem early_failure_changes_nothing (parse : string -> list File) (w : World)
        (file : CacheFile) :
  (pipelineFails w file = true ->
   filter isEffect (events (run (Current.main parse) w file)) = []
   /\ cacheFile (run (Current.main parse) w file) = file)
  /\ (forall data,
        In (EvWriteCache data) (events (run (Current.main parse) w file)) ->
        exists pr diff comments post,
          pulls_get w = Some pr
          /\ compare w (diffBase pr file) (head_sha pr) = Some diff
          /\ chat w diff = LLMReply comments
          /\ last_commit data = head_sha pr
          /\ events (run (Current.main parse) w file) =
             [EvGetPrDetails; EvReadCache;
              EvGetDiff (diffBase pr file) (head_sha pr); EvLLM diff;
              EvWriteCache data] ++ post).
Proof.
  destruct w as [pg pgd cmp ch fw rp]. unfold pipelineFails. cbn [pulls_get compare chat].
  split.
  - run_io. destruct pg as [pr|]; io_step; [|auto].
    destruct file as [| |cache]; io_step.
    + destruct (cmp (base_sha pr) (head_sha pr)) as [diff|]; io_step; [|auto].
      destruct (ch diff); io_step; auto; discriminate.
    + destruct (cmp (base_sha pr) (head_sha pr)) as [diff|]; io_step; [|auto].
      destruct (ch diff); io_step; auto; discriminate.
    + destruct (String.eqb (last_commit cache) (head_sha pr)); io_step; [auto|].
      destruct (cmp (last_commit cache) (head_sha pr)) as [diff|]; io_step; [|auto].
      destruct (ch diff); io_step; auto; discriminate.
  - intros data. run_io. destruct pg as [pr|]; io_step; [|no_such_event].
    destruct file as [| |cache]; io_step.
    + destruct (cmp (base_sha pr) (head_sha pr)) as [diff|] eqn:Ed; io_step;
        [|no_such_event].
      destruct (ch diff) as [| |comments] eqn:Ec; io_step; try no_such_event.
      destruct fw; io_step; [|no_such_event].
      set (mapped := fst (Current.mapCommentsToDiff parse diff comments)).
      destruct (0 <? List.length mapped); cbn; destruct (rp _); cbn;
        intros [H | [H | [H | [H | [H | [H | []]]]]]]; try discriminate H;
        injection H as <-; exists pr, diff, comments; eexists;
        repeat split; eauto.
    + destruct (cmp (base_sha pr) (head_sha pr)) as [diff|] eqn:Ed; io_step;
        [|no_such_event].
      destruct (ch diff) as [| |comments] eqn:Ec; io_step; try no_such_event.
      destruct fw; io_step; [|no_such_event].
      set (mapped := fst (Current.mapCommentsToDiff parse diff comments)).
      destruct (0 <? List.length mapped); cbn; destruct (rp _); cbn;
        intros [H | [H | [H | [H | [H | [H | []]]]]]]; try discriminate H;
        injection H as <-; exists pr, diff, comments; eexists;
        repeat split; eauto.
    + destruct (String.eqb (last_commit cache) (head_sha pr)); io_step;
        [no_such_event|].
      destruct (cmp (last_commit cache) (head_sha pr)) as [diff|] eqn:Ed; io_step;
        [|no_such_event].
      destruct (ch diff) as [| |comments] eqn:Ec; io_step; try no_such_event.
      set (fixes := filter _ _).
      destruct (List.length fixes =? 0); io_step;
        (destruct fw; io_step; [|no_such_event]);
        destruct (rp _); cbn;
        intros [H | [H | [H | [H | [H | [H | []]]]]]]; try discriminate H;
        injection H as <-; exists pr, diff, comments; eexists;
        repeat split; eauto.
Qed.

Lemma early_failure_changes_nothing_witness :
  filter isEffect (events (run (Current.main (fun _ => [utils_js])) garbled Missing)) = []
  /\ cacheFile (run (Current.main (fun _ => [utils_js])) garbled Missing) = Missing.
Proof.
  apply (proj1 (early_failure_changes_nothing (fun _ => [utils_js]) garbled Missing)).
  reflexivity.
Defined.

(** A failure after the pipeline is another matter: the cache is written
    before the review is posted, so a rejected submission leaves the new
    cache behind. *)
Lemma rejected_post_keeps_cache :
  run (Current.main (fun _ => [utils_js])) rejecting Missing =
  {| events :=
       [EvGetPrDetails; EvReadCache; EvGetDiff "ba5e000" "c0ffee2"; EvLLM "diff";
        EvWriteCache (reviewedAt "c0ffee2" [line42]);
        EvPost {| p_event := "REQUEST_CHANGES";
                  p_body := Some "Automated PR review found critical issues. See inline comments.";
                  p_comments := Some [line42] |}];
     cacheFile := Holds (reviewedAt "c0ffee2" [line42]) |}.
Proof. reflexivity. Qed.

(** ** The built-ins on sample inputs *)

Example toLowerCase_sample : toLowerCase "Foo.Bar(X)" = "foo.bar(x)".
Proof. reflexivity. Qed.

Example trim_sample : trim "  a b  " = "a b".
Proof. reflexivity. Qed.

Example replace_first_only :
  replace "a { ... } b { ... }" "{ ... }" "" = "a  b { ... }".
Proof. reflexivity. Qed.

Example sort_is_stable :
  sort (fun a b => (len b - len a)%Z) ["aa"; "b"; "ccc"; "dd"; ""; "eee"] =
  ["ccc"; "eee"; "aa"; "dd"; "b"; ""].
Proof. reflexivity. Qed.

Example regex_sample :
  execAll Current.regex "a.b.c x  ===  y() f(  ) g() h(a)(b) _1.2" 0 =
  ["a.b"; "x  ===  y()"; "f(  )"; "h(a)"; "_1.2"].
Proof. reflexivity. Qed.

(** ** Strings: concatenation, prefixes and occurrences *)

Lemma append_assoc (a b c : string) : (a +++ b) +++ c = a +++ (b +++ c).
Proof. induction a as [|x a IH]; simpl; [reflexivity | now rewrite IH]. Qed.

Lemma append_nil_r (a : string) : a +++ "" = a.
Proof. induction a as [|x a IH]; simpl; [reflexivity | now rewrite IH]. Qed.

Lemma length_append (a b : string) :
  String.length (a +++ b) = String.length a + String.length b.
Proof. induction a as [|x a IH]; simpl; [reflexivity | now rewrite IH]. Qed.

Lemma append_cancel_l (p a b : string) : p +++ a = p +++ b -> a = b.
Proof. induction p as [|x p IH]; simpl; [auto | intros [= H]; auto]. Qed.

Lemma append_cancel_r (s a b : string) : a +++ s = b +++ s -> a = b.
Proof.
  revert b. induction a as [|x a IH]; intros [|y b] H; simpl in H.
  - reflexivity.
  - apply (f_equal String.length) in H. simpl in H. rewrite length_append in H. lia.
  - apply (f_equal String.length) in H. simpl in H. rewrite length_append in H. lia.
  - injection H as -> H. f_equal. now apply IH.
Qed.

Lemma prefix_cons (a b : ascii) (w s : string) :
  prefix (String a w) (String b s) = if Ascii.eqb a b then prefix w s else false.
Proof.
  cbn [prefix].
  destruct (ascii_dec a b) as [e | n], (Ascii.eqb_spec a b) as [e' | n'];
    congruence.
Qed.

Lemma prefix_iff (w s : string) :
  prefix w s = true <-> exists post, s = w +++ post.
Proof.
  revert s. induction w as [|a w IH]; intros s.
  - simpl. destruct s; split; eauto.
  - destruct s as [|b s]; [split; [discriminate | intros [post H]; discriminate H]|].
    rewrite prefix_cons.
    destruct (Ascii.eqb_spec a b) as [-> | Hne].
    + rewrite IH. split; intros [post H]; exists post; [now rewrite H | now injection H].
    + split; [discriminate | intros [post H]; injection H as H _; congruence].
Qed.

Lemma includes_iff (s w : string) :
  includes s w = true <-> exists pre post, s = pre +++ w +++ post.
Proof.
  induction s as [|c s IH].
  - cbn [includes]. rewrite orb_false_r, prefix_iff. split.
    + intros [post H]. now exists "", post.
    + intros (pre & post & H). destruct pre; [now exists post | discriminate H].
  - cbn [includes]. rewrite orb_true_iff, prefix_iff, IH. split.
    + intros [[post H] | (pre & post & H)].
      * now exists "", post.
      * exists (String c pre), post. simpl. now rewrite H.
    + intros (pre & post & H). destruct pre as [|x pre].
      * left. now exists post.
      * right. injection H as _ H. now exists pre, post.
Qed.

Lemma slice0_prefix (n : nat) (s : string) : exists rest, s = slice0 n s +++ rest.
Proof.
  unfold slice0. revert s. induction n as [|n IH]; intros [|c s]; simpl.
  - now exists "".
  - now exists (String c s).
  - now exists "".
  - destruct (IH s) as [rest H]. exists rest. now rewrite <- H.
Qed.

Lemma includes_prefix_of (s w : string) (n : nat) :
  includes s w = true -> includes s (slice0 n w) = true.
Proof.
  rewrite !includes_iff. intros (pre & post & ->).
  destruct (slice0_prefix n w) as [rest H].
  exists pre, (rest +++ post). rewrite H at 1. now rewrite append_assoc.
Qed.

(** ** The start-up check and the cache file name *)

Lemma blankVar_false (env : Env) (key : string) :
  Startup.blankVar env key = false <-> exists v, env key = Some v /\ trim v <> "".
Proof.
  unfold Startup.blankVar. destruct (env key) as [v|].
  - rewrite orb_false_iff, negb_false_iff, String.eqb_neq. split.
    + intros [_ H]. eauto.
    + intros (v' & [= <-] & H). split; [|exact H].
      destruct v; [now elim H | reflexivity].
  - split; [discriminate | intros (v & H & _); discriminate H].
Qed.

(** X1: the check at load time passes exactly when each of the five
    required variables is set to a value that is not blank. *)
Theorem startup_check_passes_iff (env : Env) :
  Startup.check env = None <->
  forall key, In key Startup.requiredEnvVars -> exists v, env key = Some v /\ trim v <> "".
Proof.
  unfold Startup.check, Startup.missingVars.
  destruct (filter _ _) as [|k ks] eqn:E; simpl.
  - split; [intros _ key Hin | reflexivity].
    apply blankVar_false. destruct (Startup.blankVar env key) eqn:B; [|reflexivity].
    assert (Hf : In key (filter (Startup.blankVar env) Startup.requiredEnvVars))
      by (apply filter_In; auto).
    rewrite E in Hf. destruct Hf.
  - split; [discriminate|]. intros H.
    assert (Hk : In k (filter (Startup.blankVar env) Startup.requiredEnvVars))
      by (rewrite E; now left).
    apply filter_In in Hk as [Hin Hb].
    apply H, blankVar_false in Hin. congruence.
Qed.

(** X2: once the check at load time has passed, the token test of
    [approvePullRequest] never throws: the call posts the approval. *)
Theorem token_test_cannot_fail (env : Env) (body : option string) :
  Startup.check env = None ->
  Startup.approvePullRequest env body = Current.approvePullRequest body.
Proof.
  intros H.
  assert (Hin : In "GITHUB_TOKEN" Startup.requiredEnvVars) by (simpl; auto 6).
  unfold Startup.check in H.
  destruct (0 <? _) eqn:E; [discriminate|]. apply Nat.ltb_ge in E.
  assert (Hb : Startup.blankVar env "GITHUB_TOKEN" = false).
  { destruct (Startup.blankVar env "GITHUB_TOKEN") eqn:B; [|reflexivity].
    assert (Hf : In "GITHUB_TOKEN" (Startup.missingVars env))
      by (apply filter_In; auto).
    destruct (Startup.missingVars env); [destruct Hf | simpl in E; lia]. }
  unfold Startup.approvePullRequest, Current.approvePullRequest,
         Current.approvePullRequest_payload, Startup.blankVar in *.
  destruct (env "GITHUB_TOKEN") as [token|]; [|discriminate].
  now rewrite Hb.
Qed.

Lemma token_test_cannot_fail_witness :
  Startup.approvePullRequest ciEnv None = Current.approvePullRequest None.
Proof. apply (token_test_cannot_fail ciEnv None). reflexivity. Defined.

(** X3: the cache file name does not tell an owner/repository pair from
    another one that splits the same hyphenated text elsewhere. *)
Theorem cache_file_name_collides (path_join : string -> string -> string)
        (env1 env2 : Env) (owner middle repo : string) :
  env1 "REPO_OWNER" = Some (owner +++ "-" +++ middle) ->
  env1 "REPO_NAME" = Some repo ->
  env2 "REPO_OWNER" = Some owner ->
  env2 "REPO_NAME" = Some (middle +++ "-" +++ repo) ->
  env1 "PR_NUMBER" = env2 "PR_NUMBER" ->
  env1 "GITHUB_WORKSPACE" = env2 "GITHUB_WORKSPACE" ->
  Startup.getCacheFileName path_join env1 = Startup.getCacheFileName path_join env2.
Proof.
  intros Ho1 Hr1 Ho2 Hr2 Hpr Hws.
  unfold Startup.getCacheFileName, Startup.cacheBaseName, Startup.interpolate.
  rewrite Ho1, Hr1, Ho2, Hr2, Hpr, Hws. f_equal. f_equal.
  rewrite !append_assoc. reflexivity.
Qed.

(** X4: for one owner and repository, two pull request numbers give two
    file names before [path.join]. *)
Theorem cache_base_name_tells_prs_apart (env1 env2 : Env) :
  env1 "REPO_OWNER" = env2 "REPO_OWNER" ->
  env1 "REPO_NAME" = env2 "REPO_NAME" ->
  Startup.cacheBaseName env1 = Startup.cacheBaseName env2 ->
  Startup.interpolate env1 "PR_NUMBER" = Startup.interpolate env2 "PR_NUMBER".
Proof.
  unfold Startup.cacheBaseName, Startup.interpolate. intros -> -> H.
  repeat apply append_cancel_l in H.
  now apply append_cancel_r in H.
Qed.

Lemma cache_file_name_collides_witness :
  Startup.getCacheFileName String.append (envOf "acme-web" "shop" "7") =
  Startup.getCacheFileName String.append (envOf "acme" "web-shop" "7").
Proof.
  apply (cache_file_name_collides String.append _ _ "acme" "web" "shop");
    reflexivity.
Defined.

Lemma cache_base_name_tells_prs_apart_witness :
  Startup.interpolate (envOf "acme" "shop" "7") "PR_NUMBER" =
  Startup.interpolate (envOf "acme" "shop" "7") "PR_NUMBER".
Proof.
  apply (cache_base_name_tells_prs_apart (envOf "acme" "shop" "7") (envOf "acme" "shop" "7"));
    reflexivity.
Defined.

(** ** The fences of the reply *)

Lemma matches_word (c : ascii) (w s : string) :
  matches (word c w) s =
  if prefix (String c w) s then [(String c w, drop (S (String.length w)) s)] else [].
Proof.
  revert c s. induction w as [|d w IH]; intros c [|x s]; try reflexivity.
  - rewrite prefix_cons. cbn [word matches]. 
    destruct (Ascii.eqb_spec c x) as [->|]; [|reflexivity].
    destruct s; reflexivity.
  - rewrite prefix_cons. cbn [word matches flat_map].
    destruct (Ascii.eqb_spec c x) as [->|]; [|reflexivity].
    cbn [flat_map fst snd]. rewrite app_nil_r, IH.
    destruct (prefix (String d w) s); reflexivity.
Qed.

Lemma fence_matches (s : string) :
  matches Startup.fence s =
  (if prefix "```json" s then [("```json", drop 7 s)] else []) ++
  (if prefix "```" s then [("```", drop 3 s)] else []).
Proof.
  change Startup.fence with (Alt (word "`" "``json") (word "`" "``")).
  cbn [matches]. now rewrite !matches_word.
Qed.

Lemma drop_length (k : nat) (s : string) :
  String.length (drop k s) = String.length s - k.
Proof.
  revert s. induction k as [|k IH]; intros [|c s]; simpl; auto.
Qed.

Lemma replaceAll_skip (r : regex) (rep s : string) (k : nat) :
  replaceAll r rep s k = replaceAll r rep (drop k s) 0.
Proof.
  revert k. induction s as [|c s IH]; intros [|k]; try reflexivity.
  simpl. apply IH.
Qed.

Lemma unfenced_at_fence (s : string) :
  prefix "```" s = true ->
  unfenced s = unfenced (drop (if prefix "```json" s then 7 else 3) s).
Proof.
  intros H. unfold unfenced. destruct s as [|c s]; [discriminate H|].
  cbn [replaceAll]. rewrite fence_matches, H.
  destruct (prefix "```json" (String c s)); cbn [app fst String.length Nat.sub];
    now rewrite replaceAll_skip.
Qed.

Lemma unfenced_keep (c : ascii) (s : string) :
  prefix "```" (String c s) = false ->
  unfenced (String c s) = String c (unfenced s).
Proof.
  intros H. unfold unfenced. cbn [replaceAll]. rewrite fence_matches, H.
  destruct (prefix "```json" (String c s)) eqn:E; [|reflexivity].
  apply prefix_iff in E as [post E].
  assert (prefix "```" (String c s) = true) by (apply prefix_iff; exists ("json" +++ post); now rewrite E).
  congruence.
Qed.

Lemma unfenced_head (s out : string) :
  unfenced s = String "`" out -> exists s', s = String "`" s'.
Proof.
  destruct s as [|c s]; [discriminate|].
  destruct (prefix "```" (String c s)) eqn:E.
  - intros _. apply prefix_iff in E as [post E]. injection E as -> _. eauto.
  - rewrite (unfenced_keep _ _ E). intros [= -> _]. eauto.
Qed.

Lemma unfenced_no_fence_bounded (n : nat) (s : string) :
  String.length s <= n -> includes (unfenced s) "```" = false.
Proof.
  revert s. induction n as [|n IH]; intros s Hlen.
  - destruct s; [reflexivity | cbn [String.length] in Hlen; lia].
  - destruct s as [|c s]; [reflexivity|].
    destruct (prefix "```" (String c s)) eqn:E.
    + rewrite (unfenced_at_fence _ E). apply IH.
      rewrite drop_length. cbn [String.length] in *.
      destruct (prefix "```json" (String c s)); lia.
    + rewrite (unfenced_keep _ _ E). cbn [includes].
      rewrite (IH s) by (cbn [String.length] in Hlen; lia). rewrite orb_false_r.
      destruct (prefix "```" (String c (unfenced s))) eqn:P; [|reflexivity].
      exfalso. apply prefix_iff in P as [post P]. injection P as -> P.
      destruct (unfenced_head _ _ P) as [s1 ->].
      assert (E1 : prefix "```" (String "`" s1) = false).
      { destruct (prefix "```" (String "`" s1)) eqn:E1; [|reflexivity].
        apply prefix_iff in E1 as [p1 E1]. injection E1 as ->.
        vm_compute in E. discriminate E. }
      rewrite (unfenced_keep _ _ E1) in P. injection P as P.
      destruct (unfenced_head _ _ P) as [s2 ->].
      destruct s2; vm_compute in E; discriminate E.
Qed.

Lemma trimStart_suffix (s : string) : exists pre, s = pre +++ trimStart s.
Proof.
  induction s as [|c s [pre IH]]; simpl.
  - now exists "".
  - destruct (isWhiteSpace c).
    + exists (String c pre). simpl. now rewrite <- IH.
    + now exists "".
Qed.

Lemma trimEnd_prefix (s : string) : exists post, s = trimEnd s +++ post.
Proof.
  induction s as [|c s [post IH]]; simpl.
  - now exists "".
  - destruct (trimEnd s) as [|d t].
    + destruct (isWhiteSpace c); [now exists (String c s)|].
      exists s. reflexivity.
    + exists post. simpl in *. now rewrite <- IH.
Qed.

Lemma includes_trim (s w : string) :
  includes (trim s) w = true -> includes s w = true.
Proof.
  unfold trim. rewrite !includes_iff. intros (pre & post & H).
  destruct (trimStart_suffix s) as [a Ha].
  destruct (trimEnd_prefix (trimStart s)) as [b Hb].
  exists (a +++ pre), (post +++ b).
  rewrite Ha, Hb, H. now rewrite !append_assoc.
Qed.

(** X5: whatever the model replies, the text handed to [JSON.parse] holds
    no fence marker: removing the fences never brings three backticks
    together. *)
Theorem stripFences_leaves_no_fence (content : string) :
  includes (Startup.stripFences content) "```" = false.
Proof.
  unfold Startup.stripFences. fold (unfenced content).
  destruct (includes (trim (unfenced content)) "```") eqn:E; [|reflexivity].
  apply includes_trim in E.
  now rewrite (unfenced_no_fence_bounded (String.length content) content) in E.
Qed.

(** X6: a reply without a fence marker is only trimmed. *)
Theorem stripFences_keeps_plain_reply (content : string) :
  includes content "```" = false ->
  Startup.stripFences content = trim content.
Proof.
  intros H. unfold Startup.stripFences. fold (unfenced content). f_equal.
  induction content as [|c s IH]; [reflexivity|].
  cbn [includes] in H. apply orb_false_iff in H as [Hp Hi].
  rewrite (unfenced_keep _ _ Hp). f_equal. now apply IH.
Qed.

Lemma stripFences_keeps_plain_reply_witness :
  Startup.stripFences "  {} " = "{}".
Proof. apply (stripFences_keeps_plain_reply "  {} "). reflexivity. Defined.

Example stripFences_sample :
  Startup.stripFences ("```json" +++ nl +++ "{}" +++ nl +++ "```") = "{}".
Proof. reflexivity. Qed.

(** ** More on the matcher *)

(** X7: every annotation is accounted for once: it leaves either one
    comment or one warning, so comments and warnings add up to the number of
    annotations. *)
Theorem every_annotation_mapped_or_warned (parse : string -> list File) (diff : string)
        (annotations : list LLMComment) :
  List.length (fst (Current.mapCommentsToDiff parse diff annotations))
  + List.length (snd (Current.mapCommentsToDiff parse diff annotations))
  = List.length annotations.
Proof.
  rewrite mapCommentsToDiff_outcomes. cbn [fst snd].
  induction annotations as [|a rest IH]; [reflexivity|].
  cbn [flat_map]. rewrite !length_app. cbn [List.length].
  unfold outcome at 1 3. destruct (find _ _); cbn [fst snd List.length]; lia.
Qed.

(** X8: a diff that adds no line (only removals and context) anchors
    nothing: every annotation is dropped with its warning, in order. *)
Theorem no_added_line_no_comment (parse : string -> list File) (diff : string)
        (annotations : list LLMComment) :
  addedLines (parse diff) = [] ->
  Current.mapCommentsToDiff parse diff annotations = ([], map warning annotations).
Proof.
  intros H. rewrite mapCommentsToDiff_outcomes. unfold outcome. rewrite H. cbn [find fst snd].
  f_equal; induction annotations as [|a rest IH]; cbn [flat_map map app]; congruence.
Qed.

Lemma no_added_line_no_comment_witness :
  Current.mapCommentsToDiff
    (fun _ => [{| to := "old.js"; chunks := [{| changes := [DelChange 3 "-foo.bar(x)"] |}] |}])
    "" [nullCheck]
  = ([], ["Could not map: foo.bar(x)"]).
Proof.
  apply (no_added_line_no_comment
           (fun _ => [{| to := "old.js"; chunks := [{| changes := [DelChange 3 "-foo.bar(x)"] |}] |}])
           "" [nullCheck]).
  reflexivity.
Defined.

Lemma slice0_nonempty (n : nat) (s : string) :
  s <> "" -> slice0 (S n) s <> "".
Proof. destruct s; [congruence | discriminate]. Qed.

Lemma context_hits (cc : string) (l : AddedLine) :
  cc <> "" ->
  includes (normalize (snd l)) cc = true ->
  hits (Current.extractKeyPhrases cc) l = true.
Proof.
  intros Hne Hin. unfold hits, Current.extractKeyPhrases.
  destruct (_ || _).
  - rewrite existsb_app. apply orb_true_iff. right. cbn [existsb].
    rewrite (includes_prefix_of _ _ 30 Hin).
    pose proof (slice0_nonempty 29 cc Hne) as Hs.
    destruct (slice0 30 cc); [congruence | reflexivity].
  - cbn [existsb]. rewrite Hin. destruct cc; [congruence | reflexivity].
Qed.

(** X9: an annotation whose context, once trimmed and lowercased, is not
    empty and occurs in the normalized text of some added line is never
    dropped: it leaves exactly one comment, on an added line of the diff. *)
Theorem quoted_line_is_anchored (parse : string -> list File) (diff : string)
        (a : LLMComment) (l : AddedLine) :
  In l (addedLines (parse diff)) ->
  normalize (context a) <> "" ->
  includes (normalize (snd l)) (normalize (context a)) = true ->
  exists l',
    In l' (addedLines (parse diff))
    /\ Current.mapCommentsToDiff parse diff [a] = ([anchored a l'], []).
Proof.
  intros Hl Hne Hin.
  rewrite mapCommentsToDiff_outcomes. cbn [flat_map]. rewrite !app_nil_r.
  unfold outcome.
  destruct (find _ _) as [l'|] eqn:E.
  - exists l'. split; [|reflexivity]. now apply find_some in E.
  - exfalso. pose proof (find_none _ _ E l Hl) as Hn.
    unfold candidatePhrases in Hn. rewrite (context_hits _ l Hne Hin) in Hn. discriminate.
Qed.

Lemma quoted_line_is_anchored_witness :
  exists l',
    In l' (addedLines [utils_js])
    /\ Current.mapCommentsToDiff (fun _ => [utils_js]) "" [nullCheck] = ([anchored nullCheck l'], []).
Proof.
  apply (quoted_line_is_anchored (fun _ => [utils_js]) "" nullCheck
           ("utils.js", 43%Z, "+  log(foo.bar(x));")).
  - simpl. auto.
  - discriminate.
  - reflexivity.
Defined.

(** ** The key-phrase pattern *)

Lemma star_split (cls : ascii -> bool) (s : string) (m : string * string) :
  In m (star cls s) -> s = fst m +++ snd m.
Proof.
  revert m. induction s as [|c s IH]; intros m; simpl.
  - intros [<- | []]. reflexivity.
  - destruct (cls c).
    + rewrite in_app_iff, in_map_iff. intros [(m' & <- & H) | [<- | []]].
      * simpl. now rewrite <- (IH m' H).
      * reflexivity.
    + intros [<- | []]. reflexivity.
Qed.

Lemma matches_split (r : regex) (s : string) (m : string * string) :
  In m (matches r s) -> s = fst m +++ snd m.
Proof.
  revert s m. induction r as [c | cls | cls | r1 IH1 r2 IH2 | r1 IH1 r2 IH2];
    intros s m; cbn [matches].
  - destruct s as [|d rest]; [intros []|].
    destruct (Ascii.eqb c d); [intros [<- | []]; reflexivity | intros []].
  - unfold plus. destruct s as [|c rest]; [intros []|].
    destruct (cls c); [|intros []].
    rewrite in_map_iff. intros (m' & <- & H). simpl.
    now rewrite <- (star_split _ _ _ H).
  - apply star_split.
  - rewrite in_flat_map. intros (m1 & H1 & H).
    apply in_map_iff in H as (m2 & <- & H2). cbn [fst snd].
    rewrite (IH1 _ _ H1) at 1. rewrite (IH2 _ _ H2) at 1.
    now rewrite append_assoc.
  - rewrite in_app_iff. intros [H | H]; eauto.
Qed.

Lemma matches_consuming (r : regex) (s : string) (m : string * string) :
  consuming r = true -> In m (matches r s) -> fst m <> "".
Proof.
  revert s m. induction r as [c | cls | cls | r1 IH1 r2 IH2 | r1 IH1 r2 IH2];
    intros s m; cbn [matches consuming].
  - intros _. destruct s as [|d rest]; [intros []|].
    destruct (Ascii.eqb c d); [intros [<- | []]; discriminate | intros []].
  - intros _. unfold plus. destruct s as [|c rest]; [intros []|].
    destruct (cls c); [|intros []].
    rewrite in_map_iff. intros (m' & <- & _). discriminate.
  - discriminate.
  - intros Hc. rewrite in_flat_map. intros (m1 & H1 & H).
    apply in_map_iff in H as (m2 & <- & H2). cbn [fst].
    apply orb_prop in Hc as [Hc | Hc].
    + specialize (IH1 _ _ Hc H1). destruct (fst m1); [congruence | discriminate].
    + specialize (IH2 _ _ Hc H2).
      destruct (fst m1); [exact IH2 | discriminate].
  - intros Hc. apply andb_prop in Hc as [Hc1 Hc2].
    rewrite in_app_iff. intros [H | H]; eauto.
Qed.

Lemma includes_cons (c : ascii) (s w : string) :
  includes s w = true -> includes (String c s) w = true.
Proof. intros H. cbn [includes]. rewrite H. apply orb_true_r. Qed.

Lemma execAll_pieces (r : regex) (s : string) (inside : nat) (p : string) :
  consuming r = true ->
  In p (execAll r s inside) -> p <> "" /\ includes s p = true.
Proof.
  intros Hc. revert inside. induction s as [|c rest IH]; intros inside; [intros []|].
  cbn [execAll]. destruct inside as [|k].
  - destruct (matches r (String c rest)) as [|m ms] eqn:E.
    + intros H. destruct (IH _ H). auto using includes_cons.
    + intros [<- | H].
      * assert (Hm : In m (matches r (String c rest))) by (rewrite E; now left).
        split; [exact (matches_consuming _ _ _ Hc Hm)|].
        apply includes_iff. exists "", (snd m). exact (matches_split _ _ _ Hm).
      * destruct (IH _ H). auto using includes_cons.
  - intros H. destruct (IH _ H). auto using includes_cons.
Qed.

(** X10: the key-phrase pattern never matches the empty text, and every
    phrase the [exec] loop extracts is a non-empty piece of the context it
    was run on. *)
Theorem pattern_phrases_are_pieces_of_context (codeContext p : string) :
  In p (execAll Current.regex codeContext 0) ->
  p <> "" /\ includes codeContext p = true.
Proof. apply execAll_pieces. reflexivity. Qed.

Lemma pattern_phrases_are_pieces_of_context_witness :
  "a.b" <> "" /\ includes "x = a.b + 1" "a.b" = true.
Proof.
  apply (pattern_phrases_are_pieces_of_context "x = a.b + 1" "a.b").
  simpl. auto.
Defined.

(** ** More on the orchestrator *)

Lemma main_write_is_final (parse : string -> list File) (w : World)
      (file : CacheFile) (data : ReviewCache) :
  In (EvWriteCache data) (events (run (Current.main parse) w file)) ->
  exists pr,
    pulls_get w = Some pr
    /\ cacheFile (run (Current.main parse) w file) = Holds data
    /\ last_commit data = head_sha pr.
Proof.
  destruct w as [pg pgd cmp ch fw rp]. run_io.
  destruct pg as [pr|]; io_step; [|no_such_event].
  destruct file as [| |cache]; io_step.
  - destruct (cmp (base_sha pr) (head_sha pr)) as [diff|]; io_step; [|no_such_event].
    destruct (ch diff) as [| |comments]; io_step; try no_such_event.
    destruct fw; io_step; [|no_such_event].
    destruct (0 <? List.length _); cbn; destruct (rp _); cbn;
      intros [H | [H | [H | [H | [H | [H | []]]]]]]; try discriminate H;
      injection H as <-; exists pr; auto.
  - destruct (cmp (base_sha pr) (head_sha pr)) as [diff|]; io_step; [|no_such_event].
    destruct (ch diff) as [| |comments]; io_step; try no_such_event.
    destruct fw; io_step; [|no_such_event].
    destruct (0 <? List.length _); cbn; destruct (rp _); cbn;
      intros [H | [H | [H | [H | [H | [H | []]]]]]]; try discriminate H;
      injection H as <-; exists pr; auto.
  - destruct (String.eqb (last_commit cache) (head_sha pr)); io_step; [no_such_event|].
    destruct (cmp (last_commit cache) (head_sha pr)) as [diff|]; io_step; [|no_such_event].
    destruct (ch diff) as [| |comments]; io_step; try no_such_event.
    destruct (List.length _ =? 0); io_step;
      (destruct fw; io_step; [|no_such_event]);
      destruct (rp _); cbn;
      intros [H | [H | [H | [H | [H | [H | []]]]]]]; try discriminate H;
      injection H as <-; exists pr; auto.
Qed.

Lemma up_to_date_trace (parse : string -> list File) (w : World)
      (cache : ReviewCache) (pr : PrDetails) :
  pulls_get w = Some pr ->
  last_commit cache = head_sha pr ->
  run (Current.main parse) w (Holds cache) =
  {| events := [EvGetPrDetails; EvReadCache]; cacheFile := Holds cache |}.
Proof.
  intros Hpr Heq. destruct w as [pg pgd cmp ch fw rp]. cbn in Hpr. subst pg.
  apply String.eqb_eq in Heq. run_io. rewrite Heq. reflexivity.
Qed.

(** X11: once a run has written the cache, a later run at the same head
    commit only fetches the metadata and reads the cache, whether or not the
    review of the first run was accepted by the hosting platform: a review
    that was rejected is not posted again. *)
Theorem rerun_at_same_head_posts_nothing (parse : string -> list File) (w w' : World)
        (file : CacheFile) (data : ReviewCache) (pr pr' : PrDetails) :
  In (EvWriteCache data) (events (run (Current.main parse) w file)) ->
  pulls_get w = Some pr ->
  pulls_get w' = Some pr' ->
  head_sha pr' = head_sha pr ->
  run (Current.main parse) w' (cacheFile (run (Current.main parse) w file)) =
  {| events := [EvGetPrDetails; EvReadCache];
     cacheFile := cacheFile (run (Current.main parse) w file) |}.
Proof.
  intros Hw Hpr Hpr' Hhead.
  destruct (main_write_is_final _ _ _ _ Hw) as (pr0 & Hpr0 & Hfile & Hlast).
  rewrite Hfile. apply up_to_date_trace with (pr := pr'); [exact Hpr'|].
  congruence.
Qed.

Lemma rerun_at_same_head_posts_nothing_witness :
  run (Current.main (fun _ => [utils_js])) calm
      (cacheFile (run (Current.main (fun _ => [utils_js])) rejecting Missing)) =
  {| events := [EvGetPrDetails; EvReadCache];
     cacheFile := cacheFile (run (Current.main (fun _ => [utils_js])) rejecting Missing) |}.
Proof.
  apply (rerun_at_same_head_posts_nothing (fun _ => [utils_js]) rejecting calm Missing
           (reviewedAt "c0ffee2" [line42]) pr7 pr7).
  - cbn. do 4 right. left. reflexivity.
  - reflexivity.
  - reflexivity.
  - reflexivity.
Defined.

(** X12: the review a run posts says what the run has written to the
    cache: the event is REQUEST_CHANGES with exactly the cached open comments
    when there are some, and APPROVE without a comments list when there are
    none; the cached commit is the head commit. *)
Theorem posted_review_matches_cache (parse : string -> list File) (w : World)
        (file : CacheFile) (p : Payload) :
  In (EvPost p) (events (run (Current.main parse) w file)) ->
  exists pr data,
    pulls_get w = Some pr
    /\ cacheFile (run (Current.main parse) w file) = Holds data
    /\ last_commit data = head_sha pr
    /\ p_event p = verdict (previous_comments data)
    /\ p_comments p = attached (previous_comments data).
Proof.
  destruct w as [pg pgd cmp ch fw rp]. run_io.
  destruct pg as [pr|]; io_step; [|no_such_event].
  destruct file as [| |cache]; io_step.
  - destruct (cmp (base_sha pr) (head_sha pr)) as [diff|]; io_step; [|no_such_event].
    destruct (ch diff) as [| |comments]; io_step; try no_such_event.
    destruct fw; io_step; [|no_such_event].
    destruct (fst (Current.mapCommentsToDiff parse diff comments)) as [|m rest];
      cbn; destruct (rp _); cbn;
      intros [H | [H | [H | [H | [H | [H | []]]]]]]; try discriminate H;
      injection H as <-; exists pr; eexists; repeat split.
  - destruct (cmp (base_sha pr) (head_sha pr)) as [diff|]; io_step; [|no_such_event].
    destruct (ch diff) as [| |comments]; io_step; try no_such_event.
    destruct fw; io_step; [|no_such_event].
    destruct (fst (Current.mapCommentsToDiff parse diff comments)) as [|m rest];
      cbn; destruct (rp _); cbn;
      intros [H | [H | [H | [H | [H | [H | []]]]]]]; try discriminate H;
      injection H as <-; exists pr; eexists; repeat split.
  - destruct (String.eqb (last_commit cache) (head_sha pr)); io_step; [no_such_event|].
    destruct (cmp (last_commit cache) (head_sha pr)) as [diff|]; io_step; [|no_such_event].
    destruct (ch diff) as [| |comments]; io_step; try no_such_event.
    destruct (filter _ _) as [|m rest];
      cbn; (destruct fw; cbn; [|no_such_event]);
      destruct (rp _); cbn;
      intros [H | [H | [H | [H | [H | [H | []]]]]]]; try discriminate H;
      injection H as <-; exists pr; eexists; repeat split.
Qed.

Lemma posted_review_matches_cache_witness :
  exists pr data,
    pulls_get calm = Some pr
    /\ cacheFile (run (Current.main (fun _ => [utils_js])) calm Missing) = Holds data
    /\ last_commit data = head_sha pr
    /\ "REQUEST_CHANGES" = verdict (previous_comments data)
    /\ Some [line42] = attached (previous_comments data).
Proof.
  apply (posted_review_matches_cache (fun _ => [utils_js]) calm Missing
           {| p_event := "REQUEST_CHANGES";
              p_body := Some "Automated PR review found critical issues. See inline comments.";
              p_comments := Some [line42] |}).
  cbn. do 5 right. left. reflexivity.
Defined.

(** X13: a cache file that cannot be decoded is treated like a missing
    one: the run makes the same calls, writes and posts. *)
Theorem undecodable_cache_is_first_review (parse : string -> list File) (w : World) :
  events (run (Current.main parse) w Undecodable) =
  events (run (Current.main parse) w Missing).
Proof.
  destruct w as [pg pgd cmp ch fw rp]. run_io.
  destruct pg as [pr|]; io_step; [|reflexivity].
  destruct (cmp (base_sha pr) (head_sha pr)) as [diff|]; io_step; [|reflexivity].
  destruct (ch diff) as [| |comments]; io_step; try reflexivity.
  destruct fw; io_step; [|reflexivity].
  destruct (fst (Current.mapCommentsToDiff parse diff comments)) as [|m rest];
    cbn; destruct (rp _); reflexivity.
Qed.

(** ** The other two drivers *)

Lemma nothing_matches_no_prior (mapped : list MappedComment) :
  filter (fun c => existsb (Part000.sameAnchor c) []) mapped = [].
Proof. induction mapped as [|m rest IH]; [reflexivity | exact IH]. Qed.

(** X14: whatever the cache, the diff and the model say, a run of the
    main of part_000 never posts anything but an approval without comments
    and never writes an open comment to the cache: line 221 resets the prior
    state before it is read. *)
Theorem part000_only_approves (parse : string -> list File) (w : World)
        (file : CacheFile) :
  (forall p, In (EvPost p) (events (run (Part000.main parse) w file)) ->
             p_event p = "APPROVE" /\ p_comments p = None)
  /\ (forall data, In (EvWriteCache data) (events (run (Part000.main parse) w file)) ->
                   previous_comments data = []).
Proof.
  destruct w as [pg pgd cmp ch fw rp].
  split; [intros p | intros data]; run_io.
  - destruct pg as [pr|]; io_step; [|no_such_event].
    destruct fw; io_step; [|no_such_event].
    destruct (String.eqb _ (head_sha pr)); io_step; [no_such_event|].
    destruct (cmp _ (head_sha pr)) as [diff|]; io_step; [|no_such_event].
    destruct (ch diff) as [| |comments]; io_step; try no_such_event.
    rewrite nothing_matches_no_prior. cbn. destruct (rp _); cbn;
      intros [H | [H | [H | [H | [H | [H | [H | []]]]]]]]; try discriminate H;
      injection H as <-; auto.
  - destruct pg as [pr|]; io_step; [|no_such_event].
    destruct fw; io_step; [|no_such_event].
    destruct (String.eqb _ (head_sha pr)); io_step;
      [intros [H | [H | [H | []]]]; try discriminate H; now injection H as <-|].
    destruct (cmp _ (head_sha pr)) as [diff|]; io_step;
      [|intros [H | [H | [H | [H | []]]]]; try discriminate H; now injection H as <-].
    destruct (ch diff) as [| |comments]; io_step;
      try (intros [H | [H | [H | [H | [H | []]]]]]; try discriminate H; now injection H as <-).
    rewrite nothing_matches_no_prior. cbn. destruct (rp _); cbn;
      intros [H | [H | [H | [H | [H | [H | [H | []]]]]]]]; try discriminate H;
      now injection H as <-.
Qed.

Lemma part000_only_approves_witness :
  p_event {| p_event := "APPROVE";
             p_body := Some "Automated review: All previous issues are resolved. Approving PR.";
             p_comments := None |} = "APPROVE"
  /\ p_comments {| p_event := "APPROVE";
                   p_body := Some "Automated review: All previous issues are resolved. Approving PR.";
                   p_comments := None |} = None.
Proof.
  apply (proj1 (part000_only_approves (fun _ => [utils_js]) calm Missing)).
  cbn. do 6 right. left. reflexivity.
Defined.

Lemma legacy_mapping_is_current (parse : string -> list File) (diff : string)
      (llmComments : list LLMComment) :
  Legacy.mapCommentsToDiff parse diff llmComments =
  Current.mapCommentsToDiff parse diff llmComments.
Proof.
  unfold Legacy.mapCommentsToDiff, Current.mapCommentsToDiff.
  generalize (@nil MappedComment, @nil string).
  induction llmComments as [|c rest IH]; intros acc; [reflexivity | apply IH].
Qed.

(** X15: the cache-less bot never posts a comment for an annotation whose
    text mentions both "class" and "instance", or "static method": every
    comment it posts is the anchored comment of an annotation of the reply
    that passes this filter. *)
Theorem legacy_posts_only_kept_annotations (parse : string -> list File) (w : World)
        (file : CacheFile) (diff : string) (comments : list LLMComment)
        (p : Payload) (l : list MappedComment) (m : MappedComment) :
  pulls_get_diff w = Some diff ->
  chat w diff = LLMReply comments ->
  In (EvPost p) (events (run (Legacy.main parse) w file)) ->
  p_comments p = Some l ->
  In m l ->
  exists a added,
    In a comments /\ legacyKeeps a = true
    /\ In added (addedLines (parse diff)) /\ m = anchored a added.
Proof.
  intros Hdiff Hchat. destruct w as [pg pgd cmp ch fw rp]. cbn in Hdiff, Hchat. subst pgd.
  run_io. rewrite Hchat. io_step.
  rewrite legacy_mapping_is_current.
  set (kept := filter _ comments).
  assert (Hkept : forall x, In x (fst (Current.mapCommentsToDiff parse diff kept)) ->
            exists a added, In a comments /\ legacyKeeps a = true
                            /\ In added (addedLines (parse diff)) /\ x = anchored a added).
  { intros x. rewrite mapCommentsToDiff_outcomes. cbn [fst]. intros Hx.
    apply in_flat_map in Hx as (a & Ha & Hx).
    apply filter_In in Ha as [Ha Hk].
    unfold outcome in Hx. destruct (find _ _) as [added|] eqn:E; [|destruct Hx].
    destruct Hx as [<- | []]. apply find_some in E as [E _].
    exists a, added. auto. }
  destruct (0 <? List.length _); io_step; destruct (rp _); cbn;
    intros [H | [H | [H | []]]]; try discriminate H;
    injection H as <-; cbn; intros [= <-]; auto.
  all: intros [].
Qed.

Lemma legacy_posts_only_kept_annotations_witness :
  exists a added,
    In a [nullCheck] /\ legacyKeeps a = true
    /\ In added (addedLines [utils_js]) /\ line42 = anchored a added.
Proof.
  apply (legacy_posts_only_kept_annotations (fun _ => [utils_js]) calm Missing "diff"
           [nullCheck]
           {| p_event := "REQUEST_CHANGES";
              p_body := Some "Automated PR review found critical issues. See inline comments.";
              p_comments := Some [line42] |}
           [line42] line42).
  - reflexivity.
  - reflexivity.
  - cbn. do 2 right. left. reflexivity.
  - reflexivity.
  - left. reflexivity.
Defined.

(** ** The command line *)

Ltac run_cli :=
  unfold Cli.cli, Cli.collectComments, Cli.postComments, Cli.andThen, Cli.liftIO,
         Cli.writeArtifact, Cli.readArtifact, Cli.done, Cli.start,
         Current.main, tryCatch, Current.submitReview, Current.approvePullRequest,
         getPrDetails, getDiffFromCommits, generateCommentsFromLLM, saveReviewCache,
         loadReviewCache, post, bind, emit, ask, ofOption, ret, throw;
  io_step.

(** X16: with [--collect-comments] on the command line, whatever else is
    on it, the script never posts a review; and when it writes the cache,
    the file of collected comments holds the cached open comments. *)
Theorem collect_never_posts (parse : string -> list File) (args : list string)
        (cw : Cli.CliWorld) (file : CacheFile) (arts : string -> Cli.ArtifactFile) :
  Cli.has "--collect-comments" args = true ->
  let d := fst (Cli.cli parse args cw (Cli.start file arts)) in
  (forall p, ~ In (EvPost p) (events (Cli.sys d)))
  /\ (forall data, In (EvWriteCache data) (events (Cli.sys d)) ->
                   Cli.artifacts d "review-comments.json"
                   = Cli.Artifact (previous_comments data)).
Proof.
  intros Hargs. destruct cw as [[pg pgd cmp ch fw rp] cwr]. unfold Cli.cli. rewrite Hargs.
  run_cli.
  destruct pg as [pr|]; io_step; [|split; intros x; no_such_event].
  destruct file as [| |cache]; io_step.
  - destruct (cmp (base_sha pr) (head_sha pr)) as [diff|]; io_step;
      [|split; intros x; no_such_event].
    destruct (ch diff) as [| |comments]; io_step; try (split; intros x; no_such_event).
    destruct cwr; io_step; [|split; intros x; no_such_event].
    destruct fw; io_step; [|split; intros x; no_such_event].
    split; [intros x; no_such_event|].
    intros data [H | [H | [H | [H | [H | []]]]]]; try discriminate H.
    now injection H as <-.
  - destruct (cmp (base_sha pr) (head_sha pr)) as [diff|]; io_step;
      [|split; intros x; no_such_event].
    destruct (ch diff) as [| |comments]; io_step; try (split; intros x; no_such_event).
    destruct cwr; io_step; [|split; intros x; no_such_event].
    destruct fw; io_step; [|split; intros x; no_such_event].
    split; [intros x; no_such_event|].
    intros data [H | [H | [H | [H | [H | []]]]]]; try discriminate H.
    now injection H as <-.
  - destruct (String.eqb (last_commit cache) (head_sha pr)); io_step.
    + destruct cwr; io_step; split; intros x; no_such_event.
    + destruct (cmp (last_commit cache) (head_sha pr)) as [diff|]; io_step;
        [|split; intros x; no_such_event].
      destruct (ch diff) as [| |comments]; io_step; try (split; intros x; no_such_event).
      destruct cwr; io_step; [|split; intros x; no_such_event].
      destruct fw; io_step; [|split; intros x; no_such_event].
      split; [intros x; no_such_event|].
      intros data [H | [H | [H | [H | [H | []]]]]]; try discriminate H.
      now injection H as <-.
Qed.

Ltac collect_then_post :=
  unfold Cli.cli;
  change (Cli.has "--collect-comments" ["--collect-comments"]) with true;
  change (Cli.has "--collect-comments" ["--post-comments"]) with false;
  change (Cli.has "--post-comments" ["--post-comments"]) with true;
  cbv iota; unfold Cli.postComments;
  change (indexOf "--post-comments" ["--post-comments"]) with (Some 0);
  cbn [nth_error Nat.add];
  run_cli.

Lemma filter_all {A : Type} (f : A -> bool) (l : list A) :
  (forall x, In x l -> f x = true) -> filter f l = l.
Proof.
  induction l as [|x r IH]; intros H; [reflexivity|].
  cbn [filter]. rewrite (H x (or_introl eq_refl)). f_equal.
  apply IH. intros y Hy. apply H. now right.
Qed.

Lemma own_anchors_all_kept (mapped : list MappedComment) :
  filter (fun c => existsb (Current.sameAnchor c) (map (fun c => (path c, line c)) mapped))
         mapped = mapped.
Proof.
  rewrite relevantFixes_source. unfold relevantFixes. apply filter_all.
  intros x Hx. apply existsb_exists. exists x. split; [exact Hx|].
  now rewrite String.eqb_refl, Z.eqb_refl.
Qed.

(** X17: collecting and then posting from the collected file posts every
    mapped comment of the new diff, whatever the open comments were before:
    the collect step has already replaced the cache by these comments, so
    the comparison with the prior state keeps them all. *)
Theorem collect_then_post_keeps_all (parse : string -> list File)
        (cw cw' : Cli.CliWorld) (file : CacheFile) (arts : string -> Cli.ArtifactFile)
        (pr : PrDetails) (diff : string) (comments : list LLMComment) :
  pulls_get (Cli.net cw) = Some pr ->
  (forall cache, file = Holds cache -> last_commit cache <> head_sha pr) ->
  compare (Cli.net cw) (diffBase pr file) (head_sha pr) = Some diff ->
  chat (Cli.net cw) diff = LLMReply comments ->
  Cli.cwd_writable cw = true ->
  fs_writable (Cli.net cw) = true ->
  let mapped := fst (Current.mapCommentsToDiff parse diff comments) in
  let d1 := fst (Cli.cli parse ["--collect-comments"] cw (Cli.start file arts)) in
  let d2 := fst (Cli.cli parse ["--post-comments"] cw' d1) in
  exists p,
    events (Cli.sys d2) = events (Cli.sys d1) ++ [EvReadCache; EvPost p]
    /\ p_event p = verdict mapped
    /\ p_comments p = attached mapped.
Proof.
  intros Hpr Hnew Hdiff Hchat Hcwd Hfs.
  destruct cw as [[pg pgd cmp ch fw rp] cwr], cw' as [[pg' pgd' cmp' ch' fw' rp'] cwr'].
  cbn in Hpr, Hdiff, Hchat, Hcwd, Hfs. subst pg cwr fw.
  collect_then_post.
  destruct file as [| |cache]; cbn [diffBase] in Hdiff; io_step.
  - rewrite Hdiff. io_step. rewrite Hchat. io_step.
    rewrite String.eqb_refl. io_step. rewrite own_anchors_all_kept.
    destruct (fst (Current.mapCommentsToDiff parse diff comments)) as [|m rest];
      cbn; destruct (rp' _); cbn; eexists; repeat split.
  - rewrite Hdiff. io_step. rewrite Hchat. io_step.
    rewrite String.eqb_refl. io_step. rewrite own_anchors_all_kept.
    destruct (fst (Current.mapCommentsToDiff parse diff comments)) as [|m rest];
      cbn; destruct (rp' _); cbn; eexists; repeat split.
  - specialize (Hnew cache eq_refl). apply String.eqb_neq in Hnew. rewrite Hnew. io_step.
    rewrite Hdiff. io_step. rewrite Hchat. io_step.
    rewrite String.eqb_refl. io_step. rewrite own_anchors_all_kept.
    destruct (fst (Current.mapCommentsToDiff parse diff comments)) as [|m rest];
      cbn; destruct (rp' _); cbn; eexists; repeat split.
Qed.

Lemma collect_then_post_keeps_all_witness :
  exists p,
    events (Cli.sys (fst (Cli.cli (fun _ => [utils_js]) ["--post-comments"] calmCli
                            (fst (Cli.cli (fun _ => [utils_js]) ["--collect-comments"] calmCli
                                    (Cli.start (Holds (reviewedAt "0ld5ha" [])) noArtifacts))))))
    = events (Cli.sys (fst (Cli.cli (fun _ => [utils_js]) ["--collect-comments"] calmCli
                              (Cli.start (Holds (reviewedAt "0ld5ha" [])) noArtifacts))))
      ++ [EvReadCache; EvPost p]
    /\ p_event p = "REQUEST_CHANGES"
    /\ p_comments p = Some [line42].
Proof.
  apply (collect_then_post_keeps_all (fun _ => [utils_js]) calmCli calmCli
           (Holds (reviewedAt "0ld5ha" [])) noArtifacts pr7 "diff" [nullCheck]).
  - reflexivity.
  - intros cache [= <-]. discriminate.
  - reflexivity.
  - reflexivity.
  - reflexivity.
  - reflexivity.
Defined.

(** X18: at a head commit that was already reviewed, collecting and then
    posting approves the pull request, even when the cache still lists open
    comments: the collect step writes an empty file and the post step
    approves on an empty list. *)
Theorem collect_then_post_approves_when_up_to_date (parse : string -> list File)
        (cw cw' : Cli.CliWorld) (cache : ReviewCache)
        (arts : string -> Cli.ArtifactFile) (pr : PrDetails) :
  pulls_get (Cli.net cw) = Some pr ->
  last_commit cache = head_sha pr ->
  Cli.cwd_writable cw = true ->
  let d1 := fst (Cli.cli parse ["--collect-comments"] cw (Cli.start (Holds cache) arts)) in
  let d2 := fst (Cli.cli parse ["--post-comments"] cw' d1) in
  events (Cli.sys d2) =
    [EvGetPrDetails; EvReadCache; EvReadCache;
     EvPost {| p_event := "APPROVE"; p_body := Some "LGTM! Approving."; p_comments := None |}]
  /\ cacheFile (Cli.sys d2) = Holds cache.
Proof.
  intros Hpr Hhead Hcwd.
  destruct cw as [[pg pgd cmp ch fw rp] cwr], cw' as [[pg' pgd' cmp' ch' fw' rp'] cwr'].
  cbn in Hpr, Hcwd. subst pg cwr. apply String.eqb_eq in Hhead.
  collect_then_post. rewrite Hhead. io_step. rewrite String.eqb_refl. cbn.
  destruct (rp' _); split; reflexivity.
Qed.

Lemma collect_then_post_approves_when_up_to_date_witness :
  events (Cli.sys (fst (Cli.cli (fun _ => [utils_js]) ["--post-comments"] calmCli
                          (fst (Cli.cli (fun _ => [utils_js]) ["--collect-comments"] calmCli
                                  (Cli.start (Holds (reviewedAt "c0ffee2" [line42])) noArtifacts))))))
  = [EvGetPrDetails; EvReadCache; EvReadCache;
     EvPost {| p_event := "APPROVE"; p_body := Some "LGTM! Approving."; p_comments := None |}]
  /\ cacheFile (Cli.sys (fst (Cli.cli (fun _ => [utils_js]) ["--post-comments"] calmCli
                          (fst (Cli.cli (fun _ => [utils_js]) ["--collect-comments"] calmCli
                                  (Cli.start (Holds (reviewedAt "c0ffee2" [line42])) noArtifacts))))))
    = Holds (reviewedAt "c0ffee2" [line42]).
Proof.
  apply (collect_then_post_approves_when_up_to_date (fun _ => [utils_js]) calmCli calmCli
           (reviewedAt "c0ffee2" [line42]) noArtifacts pr7);
    reflexivity.
Defined.



(** On that input the script reads the cache and posts the collected
    comment. *)
Example post_comments_sample :
  events (Cli.sys (fst (Cli.cli (fun _ => [utils_js]) ["--post-comments"]
                          calmCli (Cli.start Missing collected42))))
  = [EvReadCache;
     EvPost {| p_event := "REQUEST_CHANGES";
               p_body := Some "Automated PR review found critical issues. See inline comments.";
               p_comments := Some [line42] |}].
Proof. reflexivity. Qed.

(** X20: when the file named after [--post-comments] does not exist, the
    script exits with status 1 before any call: nothing is read, posted or
    written. *)
Theorem post_comments_without_file_exits (parse : string -> list File)
        (path : string) (rest : list string) (cw : Cli.CliWorld) (d : Cli.Disk) :
  path <> "" ->
  path <> "--collect-comments" ->
  existsb (String.eqb "--collect-comments") rest = false ->
  Cli.artifacts d path = Cli.NoArtifact ->
  Cli.cli parse ("--post-comments" :: path :: rest) cw d = (d, Cli.Exited 1).
Proof.
  intros Hne Hpath Hrest Hmissing.
  unfold Cli.cli, Cli.has. cbn [existsb].
  apply String.eqb_neq in Hpath. rewrite String.eqb_sym in Hpath.
  rewrite Hpath, Hrest. cbn [orb].
  unfold Cli.postComments, Cli.andThen, Cli.readArtifact. cbn [indexOf nth_error].
  rewrite String.eqb_refl. cbn.
  destruct path as [|c path]; [congruence|]. cbn [truthy].
  now rewrite Hmissing.
Qed.

Lemma post_comments_without_file_exits_witness :
  Cli.cli (fun _ => [utils_js]) ["--post-comments"; "comments.json"] calmCli
          (Cli.start Missing noArtifacts)
  = (Cli.start Missing noArtifacts, Cli.Exited 1).
Proof.
  apply (post_comments_without_file_exits (fun _ => [utils_js]) "comments.json" [] calmCli
           (Cli.start Missing noArtifacts)).
  - discriminate.
  - discriminate.
  - reflexivity.
  - reflexivity.
Defined.

(** ** The payloads across the copies and the entry points *)

(** X21: for every argument, the [submitReview] of part_000 and the one
    of part_001 build payloads with the same event and the same comments;
    they differ at most in the text of the body. *)
Theorem submitReview_copies_agree_on_event_and_comments
        (mappedComments : option (list MappedComment)) (mode : string) :
  p_event (Part000.submitReview_payload mappedComments mode)
  = p_event (Current.submitReview_payload mappedComments mode)
  /\ p_comments (Part000.submitReview_payload mappedComments mode)
     = p_comments (Current.submitReview_payload mappedComments mode).
Proof.
  unfold Part000.submitReview_payload, Current.submitReview_payload.
  destruct (String.eqb mode "APPROVE") eqn:Ea.
  - apply String.eqb_eq in Ea. subst mode.
    destruct mappedComments as [l|]; split; reflexivity.
  - destruct (String.eqb mode "REQUEST_CHANGES" || String.eqb mode "COMMENT");
      destruct mappedComments as [l|]; cbn [andb]; try (split; reflexivity);
      destruct (0 <? List.length l); split; reflexivity.
Qed.

Lemma current_payload_ok (mappedComments : option (list MappedComment)) (mode : string) :
  protocol_ok (Current.submitReview_payload mappedComments mode) = true.
Proof.
  unfold Current.submitReview_payload, protocol_ok.
  destruct (String.eqb mode "APPROVE") eqn:Ea; [reflexivity|].
  destruct (String.eqb mode "REQUEST_CHANGES" || String.eqb mode "COMMENT");
    [|reflexivity].
  destruct mappedComments as [l|]; [|reflexivity].
  destruct (0 <? List.length l) eqn:El; [|reflexivity].
  cbn [p_comments p_event]. now rewrite Ea, El.
Qed.

Ltac post_is_ok :=
  let H := fresh "Hin" in
  solve [ cbn -[Current.submitReview_payload Current.approvePullRequest_payload];
          intros H;
          repeat (destruct H as [H | H];
                  [solve [ discriminate H
                         | injection H as <-;
                           first [apply current_payload_ok | reflexivity] ]|]);
          destruct H ].

(** X22: whatever the arguments of the command line, the world and the
    files, every review the script posts respects the submission protocol:
    no comments list on an approval, and never an empty comments list. *)
Theorem every_entry_point_respects_protocol (parse : string -> list File)
        (args : list string) (cw : Cli.CliWorld) (file : CacheFile)
        (arts : string -> Cli.ArtifactFile) (p : Payload) :
  In (EvPost p) (events (Cli.sys (fst (Cli.cli parse args cw (Cli.start file arts))))) ->
  protocol_ok p = true.
Proof.
  destruct cw as [[pg pgd cmp ch fw rp] cwr]. unfold Cli.cli.
  destruct (Cli.has "--collect-comments" args);
    [|destruct (Cli.has "--post-comments" args);
      [|destruct (Cli.has "--approve" args)]].
  - unfold Cli.collectComments, Cli.andThen, Cli.liftIO, Cli.writeArtifact, Cli.start,
           getPrDetails, getDiffFromCommits, generateCommentsFromLLM, saveReviewCache,
           loadReviewCache, bind, emit, ask, ofOption, ret, throw.
    io_step.
    destruct pg as [pr|]; io_step; [|post_is_ok].
    destruct file as [| |cache]; io_step;
      try (destruct (String.eqb (last_commit cache) (head_sha pr)); io_step;
           [destruct cwr; post_is_ok|]);
      (destruct (cmp _ (head_sha pr)) as [diff|]; io_step; [|post_is_ok]);
      (destruct (ch diff) as [| |comments]; io_step; try post_is_ok);
      destruct cwr; io_step; try post_is_ok;
      destruct fw; post_is_ok.
  - unfold Cli.postComments, Cli.andThen, Cli.liftIO, Cli.readArtifact, Cli.start,
           Current.submitReview, Current.approvePullRequest, loadReviewCache, post,
           bind, emit, ask, ofOption, ret, throw.
    cbn -[Nat.ltb Nat.eqb String.eqb Current.submitReview_payload
          Current.approvePullRequest_payload].
    destruct (arts _) as [| |mapped]; try post_is_ok.
    cbn -[Nat.ltb Nat.eqb String.eqb Current.submitReview_payload
          Current.approvePullRequest_payload].
    destruct file as [| |cache];
      cbn -[Nat.ltb Nat.eqb String.eqb Current.submitReview_payload
            Current.approvePullRequest_payload];
      try (destruct (List.length _ =? 0));
      cbn -[Nat.ltb Nat.eqb String.eqb Current.submitReview_payload
            Current.approvePullRequest_payload];
      destruct (rp _); post_is_ok.
  - unfold Cli.liftIO, Cli.start, Current.approvePullRequest, post,
           bind, emit, ask, ofOption, ret, throw.
    cbn -[Current.approvePullRequest_payload]. destruct (rp _); post_is_ok.
  - unfold Cli.liftIO, Cli.start, Current.main, tryCatch, Current.submitReview,
           Current.approvePullRequest, getPrDetails, getDiffFromCommits,
           generateCommentsFromLLM, saveReviewCache, loadReviewCache, post,
           bind, emit, ask, ofOption, ret, throw.
    cbn -[Nat.ltb Nat.eqb String.eqb Current.submitReview_payload
          Current.approvePullRequest_payload].
    destruct pg as [pr|]; [|post_is_ok].
    destruct file as [| |cache];
      cbn -[Nat.ltb Nat.eqb String.eqb Current.submitReview_payload
            Current.approvePullRequest_payload];
      try (destruct (String.eqb (last_commit cache) (head_sha pr));
           cbn -[Nat.ltb Nat.eqb String.eqb Current.submitReview_payload
                 Current.approvePullRequest_payload];
           [post_is_ok|]);
      (destruct (cmp _ (head_sha pr)) as [diff|];
       cbn -[Nat.ltb Nat.eqb String.eqb Current.submitReview_payload
             Current.approvePullRequest_payload];
       [|post_is_ok]);
      (destruct (ch diff) as [| |comments];
       cbn -[Nat.ltb Nat.eqb String.eqb Current.submitReview_payload
             Current.approvePullRequest_payload];
       try post_is_ok);
      try (destruct (0 <? List.length _));
      try (destruct (List.length _ =? 0));
      cbn -[Current.submitReview_payload Current.approvePullRequest_payload];
      (destruct fw;
       cbn -[Current.submitReview_payload Current.approvePullRequest_payload];
       [|post_is_ok]);
      destruct (rp _); post_is_ok.
Qed.

Lemma every_entry_point_respects_protocol_witness :
  protocol_ok {| p_event := "REQUEST_CHANGES";
                 p_body := Some "Automated PR review found critical issues. See inline comments.";
                 p_comments := Some [line42] |} = true.
Proof.
  apply (every_entry_point_respects_protocol (fun _ => [utils_js]) [] calmCli Missing
           noArtifacts).
  cbn. do 5 right. left. reflexivity.
Defined.

Lemma collect_never_posts_witness :
  (forall p,
      ~ In (EvPost p)
          (events (Cli.sys (fst (Cli.cli (fun _ => [utils_js])
                                   ["--approve"; "--collect-comments"] calmCli
                                   (Cli.start Missing noArtifacts))))))
  /\ (forall data,
        In (EvWriteCache data)
           (events (Cli.sys (fst (Cli.cli (fun _ => [utils_js])
                                    ["--approve"; "--collect-comments"] calmCli
                                    (Cli.start Missing noArtifacts))))) ->
        Cli.artifacts (fst (Cli.cli (fun _ => [utils_js])
                              ["--approve"; "--collect-comments"] calmCli
                              (Cli.start Missing noArtifacts)))
                      "review-comments.json"
        = Cli.Artifact (previous_comments data)).
Proof.
  apply (collect_never_posts (fun _ => [utils_js]) ["--approve"; "--collect-comments"]
           calmCli Missing noArtifacts).
  reflexivity.
Defined.
